(** * A shallow embedding of the file server (server.py)

    The server exposes five tools over one base directory: [list_files],
    [read_file], [write_file], [delete_file] and [run_command].  This
    development embeds the pure parts of the module as functions, the file
    system as a tree of directories, and the subprocess as a description of
    how the spawned process behaves, and states the properties of the
    specification over them.

    Python's [str] is embedded as [string]; a character stands for a code
    point below 256.  Python's [int] is [Z] and its [float] is the binary64
    type [float] of the kernel. *)

From Stdlib Require Import ZArith Bool Ascii String List PrimFloat Lia.
From Stdlib Require Import DecimalString DecimalPos DecimalZ.
From stdpp Require Import gmap strings list fin_maps.

Set Warnings "-register-all".

Local Open Scope Z_scope.
Local Open Scope bool_scope.

(** ** Strings: the [str] methods the module uses *)

Definition LF : ascii := "010"%char.
Definition CR : ascii := "013"%char.
Definition slash : ascii := "/"%char.

(** [s.startswith(pre)] *)
Definition startswith (s pre : string) : bool := String.prefix pre s.

(** [s.endswith(suf)] *)
Fixpoint endswith (s suf : string) : bool :=
  String.eqb s suf ||
  match s with
  | EmptyString => false
  | String _ r => endswith r suf
  end.

(** [s.split(sep)] for a separator of one character: the result is never
    empty, and an empty [s] gives one empty segment. *)
Fixpoint split (sep : ascii) (s : string) : list string :=
  match s with
  | EmptyString => [EmptyString]
  | String c r =>
      if Ascii.eqb c sep then EmptyString :: split sep r
      else match split sep r with
           | [] => [String c EmptyString]
           | seg :: segs => String c seg :: segs
           end
  end.

(** [sep.join(segs)] for a separator of one character *)
Definition join (sep : ascii) (segs : list string) : string :=
  String.concat (String sep EmptyString) segs.

(** [l[:m]]: a negative bound counts from the end of the list. *)
Definition slice_to {A} (l : list A) (m : Z) : list A :=
  if 0 <=? m then firstn (Z.to_nat m) l
  else firstn (Z.to_nat (Z.of_nat (length l) + m)) l.

(** [c.isspace()] on the code points below 256 *)
Definition isspace (c : ascii) : bool :=
  let n := nat_of_ascii c in
  ((9 <=? n) && (n <=? 13) || (28 <=? n) && (n <=? 32)
   || (n =? 133) || (n =? 160))%nat.

(** [s.lstrip(chars)] and [s.rstrip(chars)], the set of characters given
    as a predicate *)
Fixpoint lstrip_by (P : ascii -> bool) (s : string) : string :=
  match s with
  | String c r => if P c then lstrip_by P r else s
  | EmptyString => EmptyString
  end.

Fixpoint rstrip_by (P : ascii -> bool) (s : string) : string :=
  match s with
  | EmptyString => EmptyString
  | String c r =>
      match rstrip_by P r with
      | EmptyString => if P c then EmptyString else String c EmptyString
      | r' => String c r'
      end
  end.

(** [s.strip()] *)
Definition strip (s : string) : string :=
  rstrip_by isspace (lstrip_by isspace s).

Fixpoint all_chars (P : ascii -> bool) (s : string) : bool :=
  match s with
  | EmptyString => true
  | String c r => P c && all_chars P r
  end.

Fixpoint any_char (P : ascii -> bool) (s : string) : bool :=
  match s with
  | EmptyString => false
  | String c r => P c || any_char P r
  end.

(** [sep in s] for one character *)
Definition has_char (sep : ascii) (s : string) : bool :=
  any_char (fun c => Ascii.eqb c sep) s.

Definition is_slash (c : ascii) : bool := Ascii.eqb c slash.

(** ** posixpath: [os.path.join], [os.path.normpath], [os.path.dirname] *)

(** [os.path.join(a, b)]: an absolute [b] discards [a]. *)
Definition path_join (a b : string) : string :=
  if startswith b "/" then b
  else if String.eqb a "" || endswith a "/" then a +:+ b
  else a +:+ "/" +:+ b.

Definition is_nil {A} (l : list A) : bool :=
  match l with [] => true | _ => false end.

(** One turn of the loop of [normpath] over the components. *)
Definition normpath_step (initial_slashes : nat) (new_comps : list string)
    (comp : string) : list string :=
  if String.eqb comp "" || String.eqb comp "." then new_comps
  else if negb (String.eqb comp "..")
          || ((initial_slashes =? 0)%nat && is_nil new_comps)
          || (negb (is_nil new_comps) && String.eqb (List.last new_comps "") "..")
       then new_comps ++ [comp]
  else if negb (is_nil new_comps) then List.removelast new_comps
  else new_comps.

Fixpoint slashes (n : nat) : string :=
  match n with
  | O => EmptyString
  | S k => String slash (slashes k)
  end.

(** [os.path.normpath(path)] *)
Definition normpath (path : string) : string :=
  if String.eqb path "" then "."
  else
    let initial_slashes : nat :=
      if startswith path "/" then
        if startswith path "//" && negb (startswith path "///") then 2%nat
        else 1%nat
      else 0%nat in
    let comps := split slash path in
    let new_comps := fold_left (normpath_step initial_slashes) comps [] in
    let path := join slash new_comps in
    let path := slashes initial_slashes +:+ path in
    if String.eqb path "" then "." else path.

Definition nonempty (c : string) : bool := negb (String.eqb c "").

(** A component that [normpath] keeps: not empty, and free of slashes. *)
Definition kept_comp (c : string) : Prop :=
  c <> "" /\ has_char slash c = false.

(** The components of a path as the operating system walks them: empty
    components (doubled or trailing slashes) name nothing.  The tools hand
    the system normalized absolute paths only, which have no [.] and no
    [..] left. *)
Definition path_parts (path : string) : list string :=
  List.filter nonempty (split slash path).

(** [p[:p.rfind('/') + 1]]: the text up to and with the last slash *)
Fixpoint upto_last_slash (p : string) : string :=
  match p with
  | EmptyString => EmptyString
  | String c r =>
      if has_char slash p then String c (upto_last_slash r)
      else EmptyString
  end.

(** [os.path.dirname(p)] *)
Definition dirname (p : string) : string :=
  let head := upto_last_slash p in
  if negb (String.eqb head "") && negb (all_chars is_slash head)
  then rstrip_by is_slash head
  else head.

(** ** The confinement check

    Every tool computes [os.path.normpath(os.path.join(BASE_DIR, path))] and
    tests the result with [startswith(BASE_DIR)]. *)

Definition BASE_DIR : string := "/data".

Definition resolve (path : string) : string :=
  normpath (path_join BASE_DIR path).

Definition confined (target : string) : bool := startswith target BASE_DIR.

(** What the specification means by a path inside the base directory: the
    normalized path is the base directory or continues it after a
    separator. *)
Definition lexically_inside (target : string) : bool :=
  String.eqb target BASE_DIR || startswith target (BASE_DIR +:+ "/").

(** ** The output limiter *)

Definition _truncate_lines (text : string) (max_lines : Z) : string * bool :=
  if String.eqb text "" then (text, false)
  else
    let lines := split LF text in
    if Z.of_nat (length lines) <=? max_lines then (text, false)
    else
      let truncated_text := join LF (slice_to lines max_lines) in
      (truncated_text, true).

(** ** Values: what [json.load] returns and [json.dumps] receives

    [None] and JSON's null are one value, as in Python; a dict keeps its
    keys in order. *)

Inductive json : Type :=
  | JNull
  | JBool (b : bool)
  | JInt (n : Z)
  | JFloat (f : float)
  | JStr (s : string)
  | JArr (items : list json)
  | JObj (fields : list (string * json)).

(** [d.get(key)]: [None] when the key is absent *)
Fixpoint dict_get (fields : list (string * json)) (key : string) : json :=
  match fields with
  | [] => JNull
  | (k, v) :: rest => if String.eqb k key then v else dict_get rest key
  end.

(** The value of a key that is present *)
Fixpoint dict_find (fields : list (string * json)) (key : string)
    : option json :=
  match fields with
  | [] => None
  | (k, v) :: rest => if String.eqb k key then Some v else dict_find rest key
  end.

Definition field (key : string) (result : json) : option json :=
  match result with
  | JObj fields => dict_find fields key
  | _ => None
  end.

(** ** Configuration helpers *)

Definition DEFAULT_MAX_LINES : Z := 1000.

Definition digit_value (c : ascii) : option Z :=
  let n := nat_of_ascii c in
  if ((48 <=? n) && (n <=? 57))%nat then Some (Z.of_nat n - 48) else None.

(** The digits of an integer literal: at least one digit, and single
    underscores only between two digits. *)
Fixpoint int_digits (after_digit : bool) (acc : Z) (s : string) : option Z :=
  match s with
  | EmptyString => if after_digit then Some acc else None
  | String c r =>
      match digit_value c with
      | Some d => int_digits true (10 * acc + d) r
      | None =>
          if Ascii.eqb c "_" && after_digit then int_digits false acc r
          else None
      end
  end.

(** [int(s)] in base ten; [None] stands for [ValueError]. *)
Definition py_int (s : string) : option Z :=
  match strip s with
  | String "+" r => int_digits false 0 r
  | String "-" r => option_map Z.opp (int_digits false 0 r)
  | digits => int_digits false 0 digits
  end.

(** [str(value)] for the values whose text can be an integer literal.  The
    text of a float always has a point, an exponent, [inf] or [nan], and the
    text of a list or a dict starts with a bracket: [int] raises
    [ValueError] on all of them, which [None] records. *)
Definition py_str (value : json) : option string :=
  match value with
  | JNull => Some "None"
  | JBool true => Some "True"
  | JBool false => Some "False"
  | JInt n => Some (DecimalString.NilEmpty.string_of_int (Z.to_int n))
  | JStr s => Some s
  | JFloat _ | JArr _ | JObj _ => None
  end.

Definition _parse_positive_int (value : json) : option Z :=
  match py_str value with
  | Some text =>
      match py_int (strip text) with
      | Some n => if 0 <? n then Some n else None
      | None => None
      end
  | None => None
  end.

(** What opening the configuration path and [json.load] give. *)
Inductive config_file : Type :=
  | NoFile                 (* [cfg_path.is_file()] is false *)
  | LoadRaises             (* [open] or [json.load] raises *)
  | Loaded (cfg : json).

(** The process environment and the files [json.load] can be given; the
    path of [config.json] beside [server.py] is [default_cfg_path]. *)
Record host : Type := {
  environ : gmap string string;
  default_cfg_path : string;
  load_json : string -> config_file
}.

Definition getenv (h : host) (name : string) : option string :=
  environ h !! name.

Definition _load_max_lines_from_config_file (h : host) : option Z :=
  let cfg_path_env := getenv h "FILE_SERVER_CONFIG_PATH" in
  let cfg_path :=
    match cfg_path_env with
    | Some p => if String.eqb p "" then default_cfg_path h else p
    | None => default_cfg_path h
    end in
  match load_json h cfg_path with
  | Loaded (JObj cfg) =>
      let rc := dict_get cfg "run_command" in
      let nested :=
        match rc with
        | JObj rc_fields => _parse_positive_int (dict_get rc_fields "max_lines")
        | _ => None
        end in
      match nested with
      | Some ml => Some ml
      | None =>
          match _parse_positive_int (dict_get cfg "max_lines") with
          | Some ml2 => Some ml2
          | None => None
          end
      end
  | Loaded _ | NoFile | LoadRaises => None
  end.

(** The loop over the two environment variables *)
Fixpoint first_env (h : host) (names : list string) : option Z :=
  match names with
  | [] => None
  | env_name :: rest =>
      let ml :=
        match getenv h env_name with
        | Some env_val => _parse_positive_int (JStr env_val)
        | None => None
        end in
      match ml with
      | Some n => Some n
      | None => first_env h rest
      end
  end.

Definition _resolve_max_output_lines (h : host) : Z :=
  match first_env h ["RUN_COMMAND_MAX_LINES"; "MAX_OUTPUT_LINES"] with
  | Some ml => ml
  | None =>
      match _load_max_lines_from_config_file h with
      | Some ml_cfg => ml_cfg
      | None => DEFAULT_MAX_LINES
      end
  end.





(** ** The file system

    A directory maps names to files and directories; a file holds its text.
    The interpreter's default encoding in the container is UTF-8, which
    writes and reads back every [str] of this embedding unchanged, so a file
    is kept as the text the codec gives; the translation of line ends that
    text mode adds is [universal_newlines] below.  The model has no symbolic
    links, no permissions and no mount points. *)

Inductive node : Type :=
  | File (content : string)
  | Dir (entries : gmap string node).

Inductive lookup_result : Type :=
  | Found (n : node)
  | Missing          (* ENOENT: a component does not exist *)
  | NotDir.          (* ENOTDIR: a component on the way is a file *)

Fixpoint walk (n : node) (parts : list string) : lookup_result :=
  match parts with
  | [] => Found n
  | c :: rest =>
      match n with
      | File _ => NotDir
      | Dir es =>
          match es !! c with
          | Some child => walk child rest
          | None => Missing
          end
      end
  end.

Inductive OSError : Type :=
  | FileNotFoundError (filename : string)
  | FileExistsError (filename : string)
  | NotADirectoryError (filename : string)
  | IsADirectoryError (filename : string)
  | DirectoryNotEmpty (filename : string)
  | DeviceBusy (filename : string).

(** [str(e)]; the file name is quoted as [repr] quotes a name without
    quotes, backslashes or control characters. *)
Definition str_exn (e : OSError) : string :=
  let quoted name := "'" +:+ name +:+ "'" in
  match e with
  | FileNotFoundError f => "[Errno 2] No such file or directory: " +:+ quoted f
  | FileExistsError f => "[Errno 17] File exists: " +:+ quoted f
  | NotADirectoryError f => "[Errno 20] Not a directory: " +:+ quoted f
  | IsADirectoryError f => "[Errno 21] Is a directory: " +:+ quoted f
  | DirectoryNotEmpty f => "[Errno 39] Directory not empty: " +:+ quoted f
  | DeviceBusy f => "[Errno 16] Device or resource busy: " +:+ quoted f
  end.

Definition lookup_path (fs : node) (path : string) : lookup_result :=
  walk fs (path_parts path).

(** [os.path.exists], [os.path.isdir], [os.path.isfile] *)
Definition exists_path (fs : node) (path : string) : bool :=
  match lookup_path fs path with Found _ => true | _ => false end.

Definition isdir (fs : node) (path : string) : bool :=
  match lookup_path fs path with Found (Dir _) => true | _ => false end.

Definition isfile (fs : node) (path : string) : bool :=
  match lookup_path fs path with Found (File _) => true | _ => false end.

(** The tree with the node at [parts] set to [new]; [None] when the
    directory that should hold it is not there. *)
Fixpoint put (parts : list string) (new : node) (n : option node)
    : option node :=
  match parts with
  | [] => Some new
  | c :: rest =>
      match n with
      | Some (Dir es) =>
          match put rest new (es !! c) with
          | Some child => Some (Dir (<[c := child]> es))
          | None => None
          end
      | _ => None
      end
  end.

(** The tree without the entry at [parts]. *)
Fixpoint unlink (parts : list string) (n : node) : node :=
  match parts, n with
  | [c], Dir es => Dir (delete c es)
  | c :: rest, Dir es =>
      match es !! c with
      | Some child => Dir (<[c := unlink rest child]> es)
      | None => n
      end
  | _, _ => n
  end.

(** [os.makedirs(name, exist_ok=True)], seen from the directory [here] with
    [parts] still to go: every missing directory on the way is made; a file
    at the end makes [mkdir] raise [FileExistsError], a file on the way
    makes the [mkdir] of the next component raise [NotADirectoryError]. *)
Fixpoint mkdir_p (here : string) (parts : list string) (n : option node)
    : OSError + node :=
  let below c := (if String.eqb here "/" then here else here +:+ "/") +:+ c in
  let es := match n with Some (Dir es) => es | _ => ∅ end in
  match n, parts with
  | Some (File _), [] => inl (FileExistsError here)
  | Some (File _), c :: _ => inl (NotADirectoryError (below c))
  | _, [] => inr (Dir es)
  | _, c :: rest =>
      match mkdir_p (below c) rest (es !! c) with
      | inr child => inr (Dir (<[c := child]> es))
      | inl e => inl e
      end
  end.

Definition makedirs (fs : node) (name : string) : OSError + node :=
  mkdir_p "/" (path_parts name) (Some fs).

(** Text mode on reading: [\r\n] and a lone [\r] come back as [\n]
    (universal newlines, the default of [open]). *)
Fixpoint universal_newlines (s : string) : string :=
  match s with
  | EmptyString => EmptyString
  | String c r =>
      if Ascii.eqb c CR then
        match r with
        | String c' r' =>
            if Ascii.eqb c' LF then String LF (universal_newlines r')
            else String LF (universal_newlines r)
        | EmptyString => String LF EmptyString
        end
      else String c (universal_newlines r)
  end.

(** [open(path, 'r')] and [f.read()] *)
Definition read_text (fs : node) (path : string) : OSError + string :=
  match lookup_path fs path with
  | Found (File content) => inr (universal_newlines content)
  | Found (Dir _) => inl (IsADirectoryError path)
  | Missing => inl (FileNotFoundError path)
  | NotDir => inl (NotADirectoryError path)
  end.

(** [open(path, 'w')] and [f.write(content)]: the file is made or emptied
    first; text mode writes [\n] as [os.linesep], which is [\n] here. *)
Definition write_text (fs : node) (path content : string) : OSError + node :=
  match lookup_path fs path with
  | Found (Dir _) => inl (IsADirectoryError path)
  | NotDir => inl (NotADirectoryError path)
  | Found (File _) | Missing =>
      match put (path_parts path) (File content) (Some fs) with
      | Some fs' => inr fs'
      | None => inl (FileNotFoundError path)
      end
  end.

(** [os.rmdir(path)] *)
Definition rmdir (fs : node) (path : string) : OSError + node :=
  match lookup_path fs path with
  | Found (Dir es) =>
      if negb (is_nil (map_to_list es)) then inl (DirectoryNotEmpty path)
      else if is_nil (path_parts path) then inl (DeviceBusy path)
      else inr (unlink (path_parts path) fs)
  | Found (File _) => inl (NotADirectoryError path)
  | Missing => inl (FileNotFoundError path)
  | NotDir => inl (NotADirectoryError path)
  end.

(** [os.remove(path)] *)
Definition remove (fs : node) (path : string) : OSError + node :=
  match lookup_path fs path with
  | Found (File _) => inr (unlink (path_parts path) fs)
  | Found (Dir _) => inl (IsADirectoryError path)
  | Missing => inl (FileNotFoundError path)
  | NotDir => inl (NotADirectoryError path)
  end.

(** [os.listdir(path)], in the order of the map *)
Definition listdir (fs : node) (path : string) : OSError + list string :=
  match lookup_path fs path with
  | Found (Dir es) => inr (map fst (map_to_list es))
  | Found (File _) => inl (NotADirectoryError path)
  | Missing => inl (FileNotFoundError path)
  | NotDir => inl (NotADirectoryError path)
  end.

(** The length of the UTF-8 form of a text *)
Fixpoint utf8_length (s : string) : Z :=
  match s with
  | EmptyString => 0
  | String c r => (if (nat_of_ascii c <? 128)%nat then 1 else 2) + utf8_length r
  end.

(** [os.path.getsize(path)] *)
Definition getsize (fs : node) (path : string) : OSError + Z :=
  match lookup_path fs path with
  | Found (File content) => inr (utf8_length content)
  | Found (Dir _) => inr 4096   (* the tools ask for files only *)
  | Missing => inl (FileNotFoundError path)
  | NotDir => inl (NotADirectoryError path)
  end.

(** A target that [write_file] can write: nothing is there yet, with no
    file on the way to it, or a file is there. *)
Definition free_or_file (r : lookup_result) : bool :=
  match r with
  | Missing | Found (File _) => true
  | Found (Dir _) | NotDir => false
  end.

Definition walk_opt (n : option node) (parts : list string) : lookup_result :=
  match n with
  | Some n' => walk n' parts
  | None => Missing
  end.

(** ** The file tools

    Each tool takes the file system and gives its answer, and the two that
    write give the file system they leave. *)

(** What a tool returns: a text, or [json.dumps(value, indent=2)]. *)
Inductive reply : Type :=
  | Text (s : string)
  | Dumps (value : json).

Definition file_entry (fs : node) (target_dir file : string)
    : OSError + json :=
  let full_path := path_join target_dir file in
  let is_dir := isdir fs full_path in
  let size :=
    if negb is_dir then
      match getsize fs full_path with
      | inr n => inr (JInt n)
      | inl e => inl e
      end
    else inr (JStr "-") in
  let file_type := if is_dir then "Directory" else "File" in
  match size with
  | inr sz => inr (JObj [("name", JStr file); ("type", JStr file_type);
                         ("size", sz)])
  | inl e => inl e
  end.

Fixpoint file_entries (fs : node) (target_dir : string) (files : list string)
    : OSError + list json :=
  match files with
  | [] => inr []
  | file :: rest =>
      match file_entry fs target_dir file with
      | inl e => inl e
      | inr entry =>
          match file_entries fs target_dir rest with
          | inl e => inl e
          | inr file_info => inr (entry :: file_info)
          end
      end
  end.

Definition list_files (fs : node) (path : string) : reply :=
  let target_dir := resolve path in
  if negb (confined target_dir) then
    Text "Error: Cannot access directories outside of the base directory."
  else
    match listdir fs target_dir with
    | inl e => Text ("Error listing files: " +:+ str_exn e)
    | inr files =>
        match file_entries fs target_dir files with
        | inl e => Text ("Error listing files: " +:+ str_exn e)
        | inr file_info => Dumps (JArr file_info)
        end
    end.

Definition read_file (fs : node) (file_path : string) : string :=
  let target_file := resolve file_path in
  if negb (confined target_file) then
    "Error: Cannot access files outside of the base directory."
  else if negb (isfile fs target_file) then
    "Error: File does not exist or is not a file: " +:+ file_path
  else
    match read_text fs target_file with
    | inr content => content
    | inl e => "Error reading file: " +:+ str_exn e
    end.

Definition write_file (fs : node) (file_path content : string)
    : string * node :=
  let target_file := resolve file_path in
  if negb (confined target_file) then
    ("Error: Cannot access files outside of the base directory.", fs)
  else
    match makedirs fs (dirname target_file) with
    | inl e => ("Error writing to file: " +:+ str_exn e, fs)
    | inr fs1 =>
        match write_text fs1 target_file content with
        | inl e => ("Error writing to file: " +:+ str_exn e, fs1)
        | inr fs2 => ("Successfully wrote to " +:+ file_path, fs2)
        end
    end.

Definition delete_file (fs : node) (file_path : string) : string * node :=
  let target_file := resolve file_path in
  if negb (confined target_file) then
    ("Error: Cannot access files outside of the base directory.", fs)
  else if negb (exists_path fs target_file) then
    ("Error: File does not exist: " +:+ file_path, fs)
  else if isdir fs target_file then
    match rmdir fs target_file with
    | inr fs' => ("Successfully deleted directory: " +:+ file_path, fs')
    | inl e => ("Error deleting file: " +:+ str_exn e, fs)
    end
  else
    match remove fs target_file with
    | inr fs' => ("Successfully deleted file: " +:+ file_path, fs')
    | inl e => ("Error deleting file: " +:+ str_exn e, fs)
    end.

(** ** The command tool

    The subprocess is described by what [communicate()] does and after how
    many seconds; [wait_for] is the race of that against the deadline. *)

Inductive comm_outcome : Type :=
  | CommReturns (after : float) (stdout_bytes stderr_bytes : list Byte.byte)
      (returncode : Z)
  | CommRaises (after : float) (e : string)
  | CommNever.

Record process : Type := {
  pid : Z;
  communicate : option (list Byte.byte) -> comm_outcome
}.

Inductive spawn_outcome : Type :=
  | SpawnRaises (e : string)
  | Spawned (proc : process).

(** The world [run_command] runs in: the shell, the UTF-8 codec ([encode]
    is total, as this embedding of [str] has no lone surrogates; [decode]
    replaces what is invalid), and what the platform does with the kill of
    a process group. *)
Record shell : Type := {
  create_subprocess_shell : string -> string -> spawn_outcome;
  encode : string -> list Byte.byte;
  decode : list Byte.byte -> string;
  has_killpg : bool;
  killpg_raises : Z -> bool
}.

Inductive event : Type :=
  | EvSpawn (command cwd : string)
  | EvKillpg (pid : Z)
  | EvKill (pid : Z)
  | EvReap (pid : Z).

Inductive waited : Type :=
  | Done (stdout_bytes stderr_bytes : list Byte.byte) (returncode : Z)
  | Raised (e : string)
  | TimeoutError
  | Forever.

(** Whether [communicate()] ends, by returning or raising, before [d]
    seconds have passed. *)
Definition ends_before (c : comm_outcome) (d : float) : bool :=
  match c with
  | CommReturns t _ _ _ | CommRaises t _ => PrimFloat.ltb t d
  | CommNever => false
  end.

(** [await asyncio.wait_for(proc.communicate(...), timeout)]: the call that
    ends before the deadline wins; with no deadline the wait lasts as long
    as the process. *)
Definition wait_for (c : comm_outcome) (timeout : option float) : waited :=
  let unbounded :=
    match c with
    | CommReturns _ out err rc => Done out err rc
    | CommRaises _ e => Raised e
    | CommNever => Forever
    end in
  match timeout with
  | None => unbounded
  | Some d => if ends_before c d then unbounded else TimeoutError
  end.

(** The kill of the process group, with the fallback to the process; a
    failure of the fallback is swallowed. *)
Definition kill_group (sh : shell) (p : Z) : list event :=
  if has_killpg sh then
    if killpg_raises sh p then [EvKillpg p; EvKill p] else [EvKillpg p]
  else [EvKill p].

Definition is_not_None {A} (o : option A) : bool :=
  match o with Some _ => true | None => false end.

(** [_to_float]: the tool's arguments arrive as floats or [None]. *)
Definition _to_float (value : option float) : option float :=
  match value with
  | Some v => Some v
  | None => None
  end.

(** The effective timeout in seconds; [None] is no deadline. *)
Definition timeout_secs (timeout timeout_ms : option float) : option float :=
  if is_not_None timeout || is_not_None timeout_ms then
    let secs := _to_float timeout in
    let secs :=
      match secs with
      | None =>
          match _to_float timeout_ms with
          | Some ms => Some (ms / 1000)%float
          | None => None
          end
      | Some _ => secs
      end in
    match secs with
    | Some v => if PrimFloat.ltb 0 v then Some v else None
    | None => None
    end
  else Some 60%float.

Definition json_of_timeout (t : option float) : json :=
  match t with
  | Some v => JFloat v
  | None => JNull
  end.

(** [run_command] once the working directory is settled.  The second
    [communicate()], after the kill, reaps the process and its result is
    dropped. *)
Definition run_in (sh : shell) (MAX_OUTPUT_LINES : Z)
    (command : string) (stdin : option string) (working_dir : string)
    (timeout timeout_ms : option float) : list event * option reply :=
  let deadline := timeout_secs timeout timeout_ms in
  let error_reply e := Dumps (JObj [
    ("error", JStr ("Error running command: " +:+ e));
    ("cwd", JStr working_dir);
    ("command", JStr command);
    ("truncated", JBool false);
    ("stdout_truncated", JBool false);
    ("stderr_truncated", JBool false);
    ("max_lines", JInt MAX_OUTPUT_LINES)]) in
  match create_subprocess_shell sh command working_dir with
  | SpawnRaises e => ([], Some (error_reply e))
  | Spawned proc =>
      let spawned := [EvSpawn command working_dir] in
      match wait_for (communicate proc (encode sh <$> stdin)) deadline with
      | Forever => (spawned, None)
      | Raised e => (spawned, Some (error_reply e))
      | TimeoutError =>
          (spawned ++ kill_group sh (pid proc) ++ [EvReap (pid proc)],
           Some (Dumps (JObj [
             ("stdout", JStr "");
             ("stderr", JStr "Command timed out");
             ("exit_code", JNull);
             ("cwd", JStr working_dir);
             ("command", JStr command);
             ("timeout_seconds", json_of_timeout deadline);
             ("timed_out", JBool true);
             ("truncated", JBool false);
             ("stdout_truncated", JBool false);
             ("stderr_truncated", JBool false);
             ("max_lines", JInt MAX_OUTPUT_LINES)])))
      | Done stdout_bytes stderr_bytes returncode =>
          let stdout :=
            if is_nil stdout_bytes then "" else decode sh stdout_bytes in
          let stderr :=
            if is_nil stderr_bytes then "" else decode sh stderr_bytes in
          let '(stdout_truncated_text, stdout_truncated) :=
            _truncate_lines stdout MAX_OUTPUT_LINES in
          let '(stderr_truncated_text, stderr_truncated) :=
            _truncate_lines stderr MAX_OUTPUT_LINES in
          let any_truncated := stdout_truncated || stderr_truncated in
          (spawned,
           Some (Dumps (JObj [
             ("stdout", JStr stdout_truncated_text);
             ("stderr", JStr stderr_truncated_text);
             ("exit_code", JInt returncode);
             ("cwd", JStr working_dir);
             ("command", JStr command);
             ("timeout_seconds", json_of_timeout deadline);
             ("timed_out", JBool false);
             ("truncated", JBool any_truncated);
             ("stdout_truncated", JBool stdout_truncated);
             ("stderr_truncated", JBool stderr_truncated);
             ("max_lines", JInt MAX_OUTPUT_LINES)])))
      end
  end.

(** [run_command]: the events it causes and what it returns; [None] is a
    call that never returns. *)
Definition run_command (sh : shell) (MAX_OUTPUT_LINES : Z)
    (command : string) (stdin : option string) (cwd : string)
    (timeout timeout_ms : option float) : list event * option reply :=
  if negb (String.eqb cwd "") then
    let candidate := resolve cwd in
    if negb (confined candidate) then
      ([], Some (Dumps (JObj [
        ("error", JStr "Cannot use cwd outside of the base directory");
        ("cwd", JStr cwd)])))
    else
      run_in sh MAX_OUTPUT_LINES command stdin candidate timeout timeout_ms
  else
    run_in sh MAX_OUTPUT_LINES command stdin BASE_DIR timeout timeout_ms.

(** The working directory of a call whose [cwd] passes the check *)
Definition working_dir_of (cwd : string) : string :=
  if String.eqb cwd "" then BASE_DIR else resolve cwd.

(** ** Notions the further properties are stated with *)

(** A component that is a name: kept by [normpath] and neither [.] nor
    [..]. *)
Definition plain_comp (c : string) : Prop :=
  kept_comp c /\ c <> "." /\ c <> "..".

(** The kills among the events *)
Definition is_kill (ev : event) : bool :=
  match ev with
  | EvKillpg _ | EvKill _ => true
  | EvSpawn _ _ | EvReap _ => false
  end.

(** The spawns among the events *)
Definition is_spawn (ev : event) : bool :=
  match ev with
  | EvSpawn _ _ => true
  | EvKillpg _ | EvKill _ | EvReap _ => false
  end.




(** ** Sample worlds *)

Definition fs_ex : node :=
  Dir {[ "data" := Dir {[ "a.txt" := File "hello";
                          "sub" := Dir {[ "b.txt" := File "x" ]};
                          "empty" := Dir ∅ ]};
         "data2" := Dir {[ "secret.txt" := File "s3cret" ]} ]}.

Definition ascii_text (bs : list Byte.byte) : string :=
  string_of_list_byte bs.

Definition ascii_bytes (s : string) : list Byte.byte :=
  list_byte_of_string s.

(** A process that prints two lines after [secs] seconds. *)
Definition proc_ex (secs : float) : process :=
  {| pid := 4242;
     communicate := fun _ =>
       CommReturns secs (ascii_bytes (String "a" (String LF (String "b" (String LF EmptyString))))) [] 0 |}.

Definition shell_ex (secs : float) : shell :=
  {| create_subprocess_shell := fun command cwd =>
       if String.eqb command "" then SpawnRaises "spawn failed"
       else Spawned (proc_ex secs);
     encode := ascii_bytes;
     decode := ascii_text;
     has_killpg := true;
     killpg_raises := fun _ => false |}.

(** A host whose two environment variables are set but unusable, and whose
    configuration file has an unusable nested value and a good top-level
    one. *)
Definition host_ex : host :=
  {| environ := {[ "RUN_COMMAND_MAX_LINES" := "many";
                   "MAX_OUTPUT_LINES" := "-3";
                   "FILE_SERVER_CONFIG_PATH" := "/etc/fs.json" ]};
     default_cfg_path := "/app/config.json";
     load_json := fun path =>
       if String.eqb path "/etc/fs.json" then
         Loaded (JObj [("run_command", JObj [("max_lines", JStr "0")]);
                       ("max_lines", JInt 250)])
       else NoFile |}.

(** [k] times the segment [../] *)
Fixpoint dotdots (k : nat) : string :=
  match k with
  | O => EmptyString
  | S k' => "../" +:+ dotdots k'
  end.

(** * Sanity checks *)

Example resolve_max_ex1 : _resolve_max_output_lines host_ex = 250.
Proof. vm_compute. reflexivity. Qed.
Example resolve_max_ex2 :
  _resolve_max_output_lines
    {| environ := ∅; default_cfg_path := "/app/config.json";
       load_json := fun _ => LoadRaises |} = 1000.
Proof. vm_compute. reflexivity. Qed.
Example py_str_ex1 : py_str (JInt 0) = Some "0".
Proof. vm_compute. reflexivity. Qed.
Example py_str_ex2 : py_str (JInt (-12)) = Some "-12".
Proof. vm_compute. reflexivity. Qed.
Example timeout_ex1 : timeout_secs (Some (-5)%float) (Some 3000%float) = None.
Proof. vm_compute. reflexivity. Qed.
Example ls_ex1 :
  list_files fs_ex "empty" = Dumps (JArr []).
Proof. vm_compute. reflexivity. Qed.
Example ls_ex2 :
  list_files fs_ex "sub"
  = Dumps (JArr [JObj [("name", JStr "b.txt"); ("type", JStr "File");
                       ("size", JInt 1)]]).
Proof. vm_compute. reflexivity. Qed.

Example py_int_ex1 : py_int " +1_000 " = Some 1000.
Proof. vm_compute. reflexivity. Qed.
Example py_int_ex2 : py_int "1__0" = None.
Proof. vm_compute. reflexivity. Qed.
Example py_int_ex3 : py_int "12_" = None.
Proof. vm_compute. reflexivity. Qed.
Example py_int_ex4 : py_int "-7" = Some (-7).
Proof. vm_compute. reflexivity. Qed.
Example ppi_ex1 : _parse_positive_int (JInt 250) = Some 250.
Proof. vm_compute. reflexivity. Qed.
Example ppi_ex2 : _parse_positive_int (JInt (-3)) = None.
Proof. vm_compute. reflexivity. Qed.
Example ppi_ex3 : _parse_positive_int (JBool true) = None.
Proof. vm_compute. reflexivity. Qed.
Example ppi_ex4 : _parse_positive_int (JStr "0") = None.
Proof. vm_compute. reflexivity. Qed.
Example resolve_ex1 : resolve "a/./b/../c" = "/data/a/c".
Proof. vm_compute. reflexivity. Qed.
Example resolve_ex2 : resolve "../../etc/passwd" = "/etc/passwd".
Proof. vm_compute. reflexivity. Qed.
Example resolve_ex3 : resolve "" = "/data".
Proof. vm_compute. reflexivity. Qed.
Example resolve_ex4 : resolve "../data2/x" = "/data2/x".
Proof. vm_compute. reflexivity. Qed.
Example resolve_ex5 : resolve "//x/../../y/" = "//y".
Proof. vm_compute. reflexivity. Qed.
Example dirname_ex1 : dirname "/data/sub/dir/new.txt" = "/data/sub/dir".
Proof. vm_compute. reflexivity. Qed.
Example dirname_ex2 : dirname "/data" = "/".
Proof. vm_compute. reflexivity. Qed.
Example dirname_ex3 : dirname "//data" = "//".
Proof. vm_compute. reflexivity. Qed.
Example dirname_ex4 : dirname "a//b" = "a".
Proof. vm_compute. reflexivity. Qed.
Example strip_ex : strip "  42 " = "42".
Proof. vm_compute. reflexivity. Qed.
Example trunc_ex : _truncate_lines (String "a" (String LF (String "b" (String LF "")))) 2 = (String "a" (String LF "b"), true).
Proof. vm_compute. reflexivity. Qed.
Example read_ex1 : read_file fs_ex "a.txt" = "hello".
Proof. vm_compute. reflexivity. Qed.
Example read_ex2 : read_file fs_ex "sub" = "Error: File does not exist or is not a file: sub".
Proof. vm_compute. reflexivity. Qed.
Example read_ex3 : read_file fs_ex "../data2/secret.txt" = "s3cret".
Proof. vm_compute. reflexivity. Qed.
Example del_ex1 : fst (delete_file fs_ex "sub") = "Error deleting file: [Errno 39] Directory not empty: '/data/sub'".
Proof. vm_compute. reflexivity. Qed.
Example del_ex2 : fst (delete_file fs_ex "empty") = "Successfully deleted directory: empty".
Proof. vm_compute. reflexivity. Qed.
Example wr_ex1 : read_file (snd (write_file fs_ex "p/q/new.txt" "abc")) "p/q/new.txt" = "abc".
Proof. vm_compute. reflexivity. Qed.
Example wr_ex2 : fst (write_file fs_ex "a.txt/q/new.txt" "abc") = "Error writing to file: [Errno 20] Not a directory: '/data/a.txt/q'".
Proof. vm_compute. reflexivity. Qed.
Example wr_ex3 : fst (write_file fs_ex "sub" "abc") = "Error writing to file: [Errno 21] Is a directory: '/data/sub'".
Proof. vm_compute. reflexivity. Qed.
Example wr_ex4 : fst (write_file fs_ex "a.txt/new.txt" "abc") = "Error writing to file: [Errno 17] File exists: '/data/a.txt'".
Proof. vm_compute. reflexivity. Qed.

(** * The string methods *)

Lemma append_cons c s t : String c s +:+ t = String c (s +:+ t).
Proof. reflexivity. Qed.


Lemma append_assoc s t u : (s +:+ t) +:+ u = s +:+ (t +:+ u).
Proof.
  induction s as [|c s IH]; [reflexivity|].
  rewrite !append_cons, IH. reflexivity.
Qed.

Lemma split_not_nil sep s : split sep s <> [].
Proof.
  destruct s as [|c r]; simpl; [discriminate|].
  destruct (Ascii.eqb c sep); [discriminate|].
  destruct (split sep r); discriminate.
Qed.

Lemma join_cons sep x y ys :
  join sep (x :: y :: ys) = x +:+ String sep (join sep (y :: ys)).
Proof. reflexivity. Qed.

Lemma join_split sep s : join sep (split sep s) = s.
Proof.
  induction s as [|c r IH]; [reflexivity|].
  simpl. destruct (Ascii.eqb_spec c sep) as [->|Hne].
  - pose proof (split_not_nil sep r) as Hnil.
    destruct (split sep r) as [|y ys]; [congruence|].
    rewrite join_cons, IH. reflexivity.
  - pose proof (split_not_nil sep r) as Hnil.
    destruct (split sep r) as [|seg segs]; [congruence|].
    destruct segs as [|y ys].
    + unfold join in *. simpl in *. congruence.
    + rewrite join_cons, append_cons. rewrite join_cons in IH. congruence.
Qed.

Lemma split_free sep s : Forall (fun seg => has_char sep seg = false) (split sep s).
Proof.
  induction s as [|c r IH]; simpl.
  - constructor; [reflexivity|constructor].
  - destruct (Ascii.eqb c sep) eqn:Hc.
    + constructor; [reflexivity|exact IH].
    + destruct (split sep r) as [|seg segs]; constructor.
      * unfold has_char. simpl. rewrite Hc. reflexivity.
      * constructor.
      * inversion IH; subst. unfold has_char in *. simpl. rewrite Hc. assumption.
      * inversion IH; assumption.
Qed.

Lemma split_single sep s : has_char sep s = false -> split sep s = [s].
Proof.
  unfold has_char. induction s as [|c r IH]; simpl; [reflexivity|].
  intros H. apply orb_false_iff in H as [Hc Hr].
  rewrite Hc, (IH Hr). reflexivity.
Qed.

Lemma split_app_sep sep x t :
  has_char sep x = false -> split sep (x +:+ String sep t) = x :: split sep t.
Proof.
  unfold has_char. induction x as [|c r IH]; simpl; intros H.
  - rewrite Ascii.eqb_refl. reflexivity.
  - apply orb_false_iff in H as [Hc Hr].
    rewrite Hc, (IH Hr). reflexivity.
Qed.

Lemma split_join sep segs :
  segs <> [] -> Forall (fun seg => has_char sep seg = false) segs ->
  split sep (join sep segs) = segs.
Proof.
  induction segs as [|x xs IH]; [congruence|].
  intros _ Hall. inversion Hall as [|? ? Hx Hxs]; subst.
  destruct xs as [|y ys].
  - apply split_single. exact Hx.
  - rewrite join_cons, split_app_sep by exact Hx.
    rewrite IH; [reflexivity|discriminate|exact Hxs].
Qed.

(** * The output limiter *)

Lemma truncate_lines_fits t n :
  Z.of_nat (length (split LF t)) <= n -> _truncate_lines t n = (t, false).
Proof.
  intros H. unfold _truncate_lines.
  destruct (String.eqb t ""); [reflexivity|].
  destruct (Z.leb_spec (Z.of_nat (length (split LF t))) n); [reflexivity|lia].
Qed.

Lemma truncate_lines_cut t n :
  0 < n -> n < Z.of_nat (length (split LF t)) ->
  _truncate_lines t n = (join LF (firstn (Z.to_nat n) (split LF t)), true).
Proof.
  intros Hn H. unfold _truncate_lines.
  destruct (String.eqb_spec t "") as [->|_].
  - simpl in H. lia.
  - destruct (Z.leb_spec (Z.of_nat (length (split LF t))) n); [lia|].
    unfold slice_to. destruct (Z.leb_spec 0 n); [reflexivity|lia].
Qed.

Lemma truncate_lines_again t n :
  0 < n ->
  _truncate_lines (fst (_truncate_lines t n)) n = (fst (_truncate_lines t n), false).
Proof.
  intros Hn.
  destruct (Z.le_gt_cases (Z.of_nat (length (split LF t))) n) as [Hle|Hgt].
  - rewrite (truncate_lines_fits t n Hle). simpl. apply truncate_lines_fits, Hle.
  - rewrite (truncate_lines_cut t n Hn Hgt). simpl.
    apply truncate_lines_fits.
    assert (Hlen : length (firstn (Z.to_nat n) (split LF t)) = Z.to_nat n).
    { apply firstn_length_le. lia. }
    rewrite split_join.
    + rewrite Hlen. lia.
    + intros Hnil. rewrite Hnil in Hlen. simpl in Hlen. lia.
    + apply Forall_take, split_free.
Qed.

(** C4: for a positive limit [n], a text of at most [n] newline-separated
    segments is returned unchanged with the flag false; a longer one is cut
    to its first [n] segments joined by newlines with the flag true;
    limiting the result again with the same [n] changes nothing and reports
    false; the empty text is returned unchanged. *)
Theorem C4_truncate_lines (t : string) (n : Z) (Hn : 0 < n) :
  (Z.of_nat (length (split LF t)) <= n -> _truncate_lines t n = (t, false))
  /\ (n < Z.of_nat (length (split LF t)) ->
      _truncate_lines t n = (join LF (firstn (Z.to_nat n) (split LF t)), true)
      /\ length (firstn (Z.to_nat n) (split LF t)) = Z.to_nat n)
  /\ _truncate_lines (fst (_truncate_lines t n)) n
     = (fst (_truncate_lines t n), false)
  /\ _truncate_lines "" n = ("", false).
Proof.
  split; [apply truncate_lines_fits|].
  split; [|split; [apply truncate_lines_again, Hn|reflexivity]].
  intros H. split; [apply truncate_lines_cut; assumption|].
  apply firstn_length_le. lia.
Qed.

Lemma C4_truncate_lines_witness :
  0 < 2
  /\ _truncate_lines (String "a" (String LF (String "b" (String LF "c")))) 2
     = (String "a" (String LF "b"), true)
  /\ _truncate_lines (String "a" (String LF "b")) 2
     = (String "a" (String LF "b"), false).
Proof.
  pose proof (C4_truncate_lines
    (String "a" (String LF (String "b" (String LF "c")))) 2 eq_refl)
    as (_ & Hcut & Hagain & _).
  split; [reflexivity|]. split.
  - apply (Hcut eq_refl).
  - exact Hagain.
Defined.

(** * The timeout of [run_command] *)




(** * The replies of [run_command] *)

Lemma run_command_run_in sh M command stdin cwd timeout timeout_ms :
  (String.eqb cwd "" || confined (resolve cwd)) = true ->
  run_command sh M command stdin cwd timeout timeout_ms
  = run_in sh M command stdin (working_dir_of cwd) timeout timeout_ms.
Proof.
  unfold run_command, working_dir_of. intros H.
  destruct (String.eqb cwd ""); simpl in *; [reflexivity|].
  rewrite H. reflexivity.
Qed.




(** C5: in every reply of [run_command], [timed_out] true comes with
    [truncated], [stdout_truncated] and [stderr_truncated] all false. *)
Theorem C5_timed_out_not_truncated sh M command stdin cwd timeout timeout_ms
    events r :
  run_command sh M command stdin cwd timeout timeout_ms
  = (events, Some (Dumps r)) ->
  field "timed_out" r = Some (JBool true) ->
  field "truncated" r = Some (JBool false)
  /\ field "stdout_truncated" r = Some (JBool false)
  /\ field "stderr_truncated" r = Some (JBool false).
Proof.
  intros Hrun Htimed.
  assert (Hin : forall wd,
    run_in sh M command stdin wd timeout timeout_ms = (events, Some (Dumps r)) ->
    field "truncated" r = Some (JBool false)
    /\ field "stdout_truncated" r = Some (JBool false)
    /\ field "stderr_truncated" r = Some (JBool false)).
  { intros wd. unfold run_in.
    destruct (create_subprocess_shell sh command wd) as [e|proc].
    - intros [= <- <-]. discriminate Htimed.
    - destruct (wait_for _ _) as [out err rc|e| |].
      + destruct (_truncate_lines _ M) as [so sot].
        destruct (_truncate_lines _ M) as [se set].
        intros [= <- <-]. discriminate Htimed.
      + intros [= <- <-]. discriminate Htimed.
      + intros [= <- <-]. repeat split.
      + discriminate. }
  unfold run_command in Hrun.
  destruct (negb (String.eqb cwd "")).
  - destruct (negb (confined (resolve cwd))).
    + injection Hrun as <- <-. discriminate Htimed.
    + eapply Hin, Hrun.
  - eapply Hin, Hrun.
Qed.

Lemma C5_timed_out_not_truncated_witness :
  let r := JObj [
    ("stdout", JStr "");
    ("stderr", JStr "Command timed out");
    ("exit_code", JNull);
    ("cwd", JStr "/data");
    ("command", JStr "sleep 5");
    ("timeout_seconds", JFloat 1);
    ("timed_out", JBool true);
    ("truncated", JBool false);
    ("stdout_truncated", JBool false);
    ("stderr_truncated", JBool false);
    ("max_lines", JInt 1000)] in
  run_command (shell_ex 5) 1000 "sleep 5" None "" (Some 1%float) None
  = ([EvSpawn "sleep 5" "/data"; EvKillpg 4242; EvReap 4242],
     Some (Dumps r))
  /\ field "timed_out" r = Some (JBool true)
  /\ field "truncated" r = Some (JBool false)
  /\ field "stdout_truncated" r = Some (JBool false)
  /\ field "stderr_truncated" r = Some (JBool false).
Proof.
  intros r.
  assert (Hrun :
    run_command (shell_ex 5) 1000 "sleep 5" None "" (Some 1%float) None
    = ([EvSpawn "sleep 5" "/data"; EvKillpg 4242; EvReap 4242],
       Some (Dumps r))) by (vm_compute; reflexivity).
  split; [exact Hrun|]. split; [reflexivity|].
  exact (C5_timed_out_not_truncated _ _ _ _ _ _ _ _ _ Hrun eq_refl).
Defined.

(** C6: a non-empty [cwd] that fails the confinement check ends the call at
    once: no subprocess is spawned (no event at all), and the reply is the
    error with the [cwd] the caller gave. *)
Theorem C6_cwd_outside_short_circuits sh M command stdin cwd timeout
    timeout_ms :
  String.eqb cwd "" = false ->
  confined (resolve cwd) = false ->
  run_command sh M command stdin cwd timeout timeout_ms
  = ([], Some (Dumps (JObj [
       ("error", JStr "Cannot use cwd outside of the base directory");
       ("cwd", JStr cwd)]))).
Proof.
  intros Hne Hout. unfold run_command. rewrite Hne, Hout. reflexivity.
Qed.

Lemma C6_cwd_outside_short_circuits_witness :
  run_command (shell_ex 5) 1000 "ls" None "../etc" None None
  = ([], Some (Dumps (JObj [
       ("error", JStr "Cannot use cwd outside of the base directory");
       ("cwd", JStr "../etc")]))).
Proof.
  apply (C6_cwd_outside_short_circuits (shell_ex 5) 1000 "ls" None "../etc"
           None None); reflexivity.
Defined.

(** * The resolution of the line limit *)







(** * Paths that pass the check *)



(** * The file system *)


(** * [read_file] *)

(** C10: for a path that passes the check, [read_file] gives the same
    answer when the target is missing and when it is a directory: the one
    text "File does not exist or is not a file" with the path as given. *)
Theorem C10_read_file_merges_errors (fs1 fs2 : node) (file_path : string) :
  confined (resolve file_path) = true ->
  exists_path fs1 (resolve file_path) = false ->
  isdir fs2 (resolve file_path) = true ->
  read_file fs1 file_path
  = "Error: File does not exist or is not a file: " +:+ file_path
  /\ read_file fs2 file_path = read_file fs1 file_path.
Proof.
  intros Hc Hmissing Hdir. unfold read_file. rewrite Hc. simpl.
  unfold exists_path, isdir, isfile in *.
  destruct (lookup_path fs1 (resolve file_path)) as [n1| |]; [discriminate| |];
    destruct (lookup_path fs2 (resolve file_path)) as [[|]| |];
    try discriminate; split; reflexivity.
Qed.

Lemma C10_read_file_merges_errors_witness :
  read_file fs_ex "nothing.txt"
  = "Error: File does not exist or is not a file: nothing.txt"
  /\ read_file (snd (write_file fs_ex "nothing.txt/x" "")) "nothing.txt"
     = read_file fs_ex "nothing.txt".
Proof.
  apply (C10_read_file_merges_errors fs_ex
           (snd (write_file fs_ex "nothing.txt/x" "")) "nothing.txt");
    vm_compute; reflexivity.
Defined.

(** * [delete_file] *)



(** * [dirname] and the components of a path *)

Lemma split_hd_tl sep s :
  split sep s = hd "" (split sep s) :: tl (split sep s).
Proof.
  pose proof (split_not_nil sep s). destruct (split sep s); [congruence|reflexivity].
Qed.

Lemma split_cons_sep sep r : split sep (String sep r) = "" :: split sep r.
Proof. simpl. rewrite Ascii.eqb_refl. reflexivity. Qed.

Lemma split_cons_other sep c r :
  Ascii.eqb c sep = false ->
  split sep (String c r)
  = String c (hd "" (split sep r)) :: tl (split sep r).
Proof.
  intros Hc. simpl. rewrite Hc. rewrite (split_hd_tl sep r) at 1. reflexivity.
Qed.

Lemma split_rstrip h :
  hd "" (split slash (rstrip_by is_slash h)) = hd "" (split slash h)
  /\ List.filter nonempty (tl (split slash (rstrip_by is_slash h)))
     = List.filter nonempty (tl (split slash h)).
Proof.
  induction h as [|c r [IHhd IHtl]]; [split; reflexivity|].
  assert (Hcons :
    hd "" (split slash (String c (rstrip_by is_slash r)))
      = hd "" (split slash (String c r))
    /\ List.filter nonempty (tl (split slash (String c (rstrip_by is_slash r))))
       = List.filter nonempty (tl (split slash (String c r)))).
  { destruct (Ascii.eqb c slash) eqn:Hc.
    - apply Ascii.eqb_eq in Hc as ->. rewrite !split_cons_sep. simpl.
      split; [reflexivity|].
      rewrite (split_hd_tl slash r), (split_hd_tl slash (rstrip_by _ r)).
      simpl. rewrite IHhd, IHtl. reflexivity.
    - rewrite !split_cons_other by exact Hc. simpl.
      rewrite IHhd, IHtl. split; reflexivity. }
  simpl rstrip_by.
  destruct (rstrip_by is_slash r) as [|c' r'] eqn:Hr; [|exact Hcons].
  destruct (is_slash c) eqn:Hc; [|exact Hcons].
  unfold is_slash in Hc. apply Ascii.eqb_eq in Hc as ->.
  rewrite split_cons_sep. simpl.
  simpl in IHhd, IHtl. split; [reflexivity|].
  rewrite (split_hd_tl slash r). simpl. rewrite <- IHhd, <- IHtl. reflexivity.
Qed.

Lemma parts_rstrip h : path_parts (rstrip_by is_slash h) = path_parts h.
Proof.
  unfold path_parts. destruct (split_rstrip h) as [Hhd Htl].
  rewrite (split_hd_tl slash h), (split_hd_tl slash (rstrip_by _ h)).
  simpl. rewrite Hhd, Htl. reflexivity.
Qed.

Lemma upto_no_slash t : has_char slash t = false -> upto_last_slash t = "".
Proof. destruct t as [|c r]; [reflexivity|]. simpl. intros ->. reflexivity. Qed.

Lemma split_two sep r :
  has_char sep r = true -> exists a b l, split sep r = a :: b :: l.
Proof.
  unfold has_char. induction r as [|c r IH]; simpl; [discriminate|].
  destruct (Ascii.eqb c sep) eqn:Hc; simpl.
  - intros _. rewrite (split_hd_tl sep r). eauto.
  - intros H. destruct (IH H) as (a & b & l & ->). eauto.
Qed.

Lemma split_upto t :
  has_char slash t = true ->
  split slash (upto_last_slash t) = List.removelast (split slash t) ++ [""].
Proof.
  induction t as [|c r IH]; [discriminate|].
  intros H. cbn [upto_last_slash]. rewrite H.
  destruct (Ascii.eqb c slash) eqn:Hc.
  - apply Ascii.eqb_eq in Hc as ->. rewrite !split_cons_sep.
    destruct (has_char slash r) eqn:Hr.
    + rewrite (IH eq_refl). rewrite (split_hd_tl slash r). reflexivity.
    + rewrite (upto_no_slash r Hr), (split_single slash r Hr). reflexivity.
  - assert (Hr : has_char slash r = true).
    { unfold has_char in *. simpl in H. rewrite Hc in H. exact H. }
    rewrite !split_cons_other by exact Hc. rewrite (IH Hr).
    destruct (split_two slash r Hr) as (a & b & l & ->). reflexivity.
Qed.

Lemma filter_nonempty_app l1 l2 :
  List.filter nonempty (l1 ++ l2)
  = List.filter nonempty l1 ++ List.filter nonempty l2.
Proof. apply List.filter_app. Qed.

Lemma dirname_parts t :
  path_parts (dirname t) = List.filter nonempty (List.removelast (split slash t)).
Proof.
  assert (Hhead : path_parts (upto_last_slash t)
                  = List.filter nonempty (List.removelast (split slash t))).
  { unfold path_parts. destruct (has_char slash t) eqn:Ht.
    - rewrite (split_upto t Ht), filter_nonempty_app. simpl. apply app_nil_r.
    - rewrite (upto_no_slash t Ht), (split_single slash t Ht). reflexivity. }
  unfold dirname. destruct (_ && _); [rewrite parts_rstrip|]; exact Hhead.
Qed.

Lemma parts_dirname_last t :
  List.last (split slash t) "" <> "" ->
  path_parts t = path_parts (dirname t) ++ [List.last (split slash t) ""].
Proof.
  intros Hlast. rewrite dirname_parts. unfold path_parts at 1.
  rewrite (app_removelast_last "" (split_not_nil slash t)) at 1.
  rewrite filter_nonempty_app. simpl. unfold nonempty at 2.
  destruct (String.eqb_spec (List.last (split slash t) "") ""); [congruence|].
  reflexivity.
Qed.

(** * The shape of a normalized path *)

Lemma Forall_removelast {A} (P : A -> Prop) l :
  Forall P l -> Forall P (List.removelast l).
Proof.
  induction 1 as [|x l Hx Hl IH]; [constructor|].
  simpl. destruct l; [constructor|]. constructor; assumption.
Qed.

Lemma normpath_step_kept k acc comp :
  Forall kept_comp acc -> has_char slash comp = false ->
  Forall kept_comp (normpath_step k acc comp).
Proof.
  intros Hacc Hfree. unfold normpath_step.
  destruct (String.eqb_spec comp ""); simpl; [exact Hacc|].
  destruct (String.eqb comp "."); [exact Hacc|].
  destruct (_ || _).
  - apply Forall_app_2; [exact Hacc|]. repeat constructor; assumption.
  - destruct (negb (is_nil acc)); [apply Forall_removelast|]; exact Hacc.
Qed.

Lemma fold_normpath_kept k comps : forall acc,
  Forall kept_comp acc -> Forall (fun c => has_char slash c = false) comps ->
  Forall kept_comp (fold_left (normpath_step k) comps acc).
Proof.
  induction comps as [|comp comps IH]; intros acc Hacc Hfree; [exact Hacc|].
  inversion Hfree; subst. simpl. apply IH; [|assumption].
  apply normpath_step_kept; assumption.
Qed.

Lemma split_slashes k s :
  split slash (slashes k +:+ s) = repeat "" k ++ split slash s.
Proof.
  induction k as [|k IH]; [reflexivity|].
  cbn [slashes repeat]. rewrite append_cons, split_cons_sep, IH. reflexivity.
Qed.

Lemma last_repeat_app k (l : list string) :
  l <> [] -> List.last (repeat "" k ++ l) "" = List.last l "".
Proof.
  intros Hl. induction k as [|k IH]; [reflexivity|].
  cbn [repeat app]. simpl. destruct (repeat "" k ++ l) eqn:E; [|exact IH].
  apply app_eq_nil in E as [_ ?]. congruence.
Qed.

Lemma last_kept (l : list string) :
  l <> [] -> Forall kept_comp l -> List.last l "" <> "".
Proof.
  intros Hl Hall. rewrite (app_removelast_last "" Hl) in Hall.
  apply Forall_app in Hall as [_ Hlast]. inversion Hlast as [|? ? [Hne _] _].
  exact Hne.
Qed.

Lemma confined_last_part p :
  confined (normpath p) = true -> List.last (split slash (normpath p)) "" <> "".
Proof.
  unfold normpath.
  destruct (String.eqb p ""); [discriminate|].
  set (k := if startswith p "/" then _ else _).
  set (comps := fold_left (normpath_step k) (split slash p) []).
  assert (Hkept : Forall kept_comp comps).
  { apply fold_normpath_kept; [constructor|apply split_free]. }
  destruct (String.eqb _ ""); [discriminate|].
  destruct comps as [|c comps'] eqn:Hcomps.
  - subst k. destruct (startswith p "/"); [destruct (_ && _)|]; discriminate.
  - intros _. rewrite split_slashes, split_join.
    + rewrite last_repeat_app by discriminate.
      apply last_kept; [discriminate|exact Hkept].
    + discriminate.
    + eapply Forall_impl; [exact Hkept|]. intros ? [_ ?]. assumption.
Qed.

(** * [write_file] and [read_file] *)

Lemma mkdir_p_makes dparts : forall here n name,
  free_or_file (walk_opt n (dparts ++ [name])) = true ->
  exists n1,
    mkdir_p here dparts n = inr n1
    /\ (exists es, walk n1 dparts = Found (Dir es))
    /\ free_or_file (walk n1 (dparts ++ [name])) = true.
Proof.
  induction dparts as [|c rest IH]; intros here n name Hfree.
  - destruct n as [[content|es]|]; simpl in *; try discriminate.
    + exists (Dir es). eauto.
    + exists (Dir ∅). split; [reflexivity|]. split; [eauto|].
      simpl. rewrite lookup_empty. reflexivity.
  - set (es := match n with Some (Dir es') => es' | _ => ∅ end).
    assert (Hnofile : forall content, n <> Some (File content)).
    { intros content ->. discriminate Hfree. }
    assert (Hchild : free_or_file (walk_opt (es !! c) (rest ++ [name])) = true).
    { subst es. destruct n as [[content|es']|]; simpl in Hfree.
      - discriminate.
      - destruct (es' !! c); [exact Hfree|reflexivity].
      - rewrite lookup_empty. reflexivity. }
    destruct (IH ((if String.eqb here "/" then here else here +:+ "/") +:+ c)
                (es !! c) name Hchild) as (n1 & Hmk & [es1 Hdir] & Hfree1).
    exists (Dir (<[c := n1]> es)). split; [|split].
    + subst es. destruct n as [[content|es']|].
      * exfalso. eapply Hnofile. reflexivity.
      * cbn [mkdir_p]. rewrite Hmk. reflexivity.
      * cbn [mkdir_p]. rewrite Hmk. reflexivity.
    + exists es1. simpl. rewrite lookup_insert_eq. exact Hdir.
    + simpl. rewrite lookup_insert_eq. exact Hfree1.
Qed.

Lemma put_under_dir dparts : forall n es name new,
  walk n dparts = Found (Dir es) ->
  exists n2,
    put (dparts ++ [name]) new (Some n) = Some n2
    /\ walk n2 (dparts ++ [name]) = Found new
    /\ (exists es', walk n2 dparts = Found (Dir es')).
Proof.
  induction dparts as [|c rest IH]; intros n es name new Hwalk.
  - simpl in Hwalk. injection Hwalk as ->.
    exists (Dir (<[name := new]> es)). simpl.
    rewrite lookup_insert_eq. eauto.
  - destruct n as [content|es0]; simpl in Hwalk; [discriminate|].
    destruct (es0 !! c) as [child|] eqn:Hc; [|discriminate].
    destruct (IH child es name new Hwalk) as (n2 & Hput & Hnew & es' & Hdir).
    exists (Dir (<[c := n2]> es0)). simpl. rewrite Hc, Hput.
    rewrite lookup_insert_eq. eauto.
Qed.





(** * The confinement check *)

Lemma startswith_trans t mid pre :
  startswith t mid = true -> startswith mid pre = true -> startswith t pre = true.
Proof.
  unfold startswith. revert t mid.
  induction pre as [|a pre IH]; intros t mid Ht Hmid.
  - destruct t; reflexivity.
  - destruct mid as [|b mid]; [discriminate|]. simpl in Hmid.
    destruct (ascii_dec a b) as [->|]; [|discriminate].
    destruct t as [|c t]; [discriminate|]. simpl in Ht |- *.
    destruct (ascii_dec b c) as [->|]; [|discriminate].
    eapply IH; eassumption.
Qed.

Lemma startswith_cons a pre b t :
  startswith (String b t) (String a pre)
  = if ascii_dec a b then startswith t pre else false.
Proof. reflexivity. Qed.

Lemma startswith_app_same pre s t :
  startswith (pre +:+ s) (pre +:+ t) = startswith s t.
Proof.
  unfold startswith. induction pre as [|a pre IH]; [reflexivity|].
  rewrite !append_cons. simpl.
  destruct (ascii_dec a a); [exact IH|congruence].
Qed.

(** A path inside the base directory passes the check, and a path that
    passes it starts with the text of the base directory. *)
Lemma lexically_inside_confined t :
  lexically_inside t = true -> confined t = true.
Proof.
  unfold lexically_inside, confined. intros H.
  apply orb_true_iff in H as [H|H].
  - apply String.eqb_eq in H as ->. reflexivity.
  - eapply startswith_trans; [exact H|reflexivity].
Qed.


(** A path that fails the check is refused by every tool, before the file
    system is touched or a process is spawned. *)
Lemma outside_is_refused fs sh M path :
  confined (resolve path) = false ->
  list_files fs path
  = Text "Error: Cannot access directories outside of the base directory."
  /\ read_file fs path
     = "Error: Cannot access files outside of the base directory."
  /\ (forall content,
        write_file fs path content
        = ("Error: Cannot access files outside of the base directory.", fs))
  /\ delete_file fs path
     = ("Error: Cannot access files outside of the base directory.", fs)
  /\ (forall command stdin timeout timeout_ms,
        run_command sh M command stdin path timeout timeout_ms
        = ([], Some (Dumps (JObj [
             ("error", JStr "Cannot use cwd outside of the base directory");
             ("cwd", JStr path)])))).
Proof.
  intros Hout.
  unfold list_files, read_file, write_file, delete_file, run_command.
  rewrite Hout. simpl. repeat split.
  intros command stdin timeout timeout_ms.
  destruct (String.eqb_spec path "") as [->|_]; [discriminate Hout|reflexivity].
Qed.

(** ** Any number of [..] segments

    A relative path of one or more [../] and then one component [name]
    resolves to [/name]: the first [..] removes [data], and the others find
    nothing to remove at the root. *)

Lemma split_dotdots k name :
  has_char slash name = false ->
  split slash (dotdots k +:+ name) = repeat ".." k ++ [name].
Proof.
  intros Hname. induction k as [|k IH]; [apply split_single, Hname|].
  cbn [dotdots repeat app].
  change (("../" +:+ dotdots k) +:+ name)
    with (".." +:+ String slash (dotdots k +:+ name)).
  rewrite split_app_sep by reflexivity. rewrite IH. reflexivity.
Qed.

Lemma fold_dotdots_at_root k :
  fold_left (normpath_step 1) (repeat ".." k) [] = [].
Proof. induction k as [|k IH]; [reflexivity|exact IH]. Qed.

Lemma resolve_dotdots k name :
  kept_comp name -> name <> "." -> name <> ".." ->
  resolve (dotdots (S k) +:+ name) = "/" +:+ name.
Proof.
  intros [Hne Hfree] Hdot Hdotdot.
  unfold resolve, path_join.
  assert (Hrel : startswith (dotdots (S k) +:+ name) "/" = false) by reflexivity.
  rewrite Hrel.
  change (String.eqb BASE_DIR "" || endswith BASE_DIR "/") with false.
  cbv iota.
  change (BASE_DIR +:+ "/" +:+ dotdots (S k) +:+ name)
    with ("" +:+ String slash
            ("data" +:+ String slash (dotdots (S k) +:+ name))).
  unfold normpath.
  change (String.eqb ("" +:+ String slash
            ("data" +:+ String slash (dotdots (S k) +:+ name))) "") with false.
  cbv iota.
  change (startswith ("" +:+ String slash
            ("data" +:+ String slash (dotdots (S k) +:+ name))) "/") with true.
  change (startswith ("" +:+ String slash
            ("data" +:+ String slash (dotdots (S k) +:+ name))) "//") with false.
  cbv iota beta. cbn [andb].
  rewrite !split_app_sep by reflexivity.
  rewrite split_dotdots by exact Hfree.
  cbn [repeat app fold_left].
  change (normpath_step 1 (normpath_step 1 (normpath_step 1 [] "") "data") "..")
    with (@nil string).
  rewrite fold_left_app, fold_dotdots_at_root. cbn [fold_left].
  unfold normpath_step.
  destruct (String.eqb_spec name ""); [congruence|].
  destruct (String.eqb_spec name "."); [congruence|].
  destruct (String.eqb_spec name ".."); [congruence|].
  reflexivity.
Qed.

(** Such a path is refused when [name] does not start with the text
    "data". *)
Lemma dotdot_escape_refused k name :
  kept_comp name -> name <> "." -> name <> ".." ->
  startswith name "data" = false ->
  confined (resolve (dotdots (S k) +:+ name)) = false.
Proof.
  intros Hkept Hdot Hdotdot Hdata.
  rewrite (resolve_dotdots k name Hkept Hdot Hdotdot).
  unfold confined, startswith, BASE_DIR in *. simpl.
  destruct (ascii_dec "/" "/"); [exact Hdata|congruence].
Qed.

(** It is accepted when [name] is "data" and more: every sibling of the
    base directory whose name continues "data" passes the check, from any
    depth of [..]. *)
Lemma dotdot_sibling_accepted k suffix :
  suffix <> "" -> has_char slash suffix = false ->
  resolve (dotdots (S k) +:+ "data" +:+ suffix) = "/data" +:+ suffix
  /\ confined (resolve (dotdots (S k) +:+ "data" +:+ suffix)) = true
  /\ lexically_inside (resolve (dotdots (S k) +:+ "data" +:+ suffix)) = false.
Proof.
  intros Hne Hfree.
  assert (Hres : resolve (dotdots (S k) +:+ "data" +:+ suffix)
                 = "/data" +:+ suffix).
  { apply (resolve_dotdots k ("data" +:+ suffix)); try discriminate.
    split; [discriminate|exact Hfree]. }
  rewrite Hres. split; [reflexivity|]. split.
  - unfold confined.
    change BASE_DIR with ("/data" +:+ "").
    rewrite startswith_app_same. destruct suffix; reflexivity.
  - unfold lexically_inside. apply orb_false_iff. split.
    + apply String.eqb_neq. intros H. apply Hne.
      destruct suffix; [reflexivity|discriminate H].
    + change (BASE_DIR +:+ "/") with ("/data" +:+ "/").
      rewrite startswith_app_same.
      destruct suffix as [|c r]; [reflexivity|].
      unfold has_char in Hfree. simpl in Hfree.
      apply orb_false_iff in Hfree as [Hc _].
      rewrite startswith_cons.
      destruct (ascii_dec "/" c) as [<-|]; [discriminate Hc|reflexivity].
Qed.

(** C1 at the relative path [../data2/secret.txt]: it resolves to
    [/data2/secret.txt], which is outside the base directory [/data], and
    the check accepts it because the text starts with "/data"; the tools
    then read, write and delete in [/data2] and run commands there. *)
Theorem C1_sibling_of_base_passes_check :
  startswith "../data2/secret.txt" "/" = false
  /\ resolve "../data2/secret.txt" = "/data2/secret.txt"
  /\ lexically_inside (resolve "../data2/secret.txt") = false
  /\ confined (resolve "../data2/secret.txt") = true
  /\ read_file fs_ex "../data2/secret.txt" = "s3cret"
  /\ fst (write_file fs_ex "../data2/secret.txt" "")
     = "Successfully wrote to ../data2/secret.txt"
  /\ fst (delete_file fs_ex "../data2/secret.txt")
     = "Successfully deleted file: ../data2/secret.txt"
  /\ fst (run_command (shell_ex 0) 1000 "ls" None "../data2" None None)
     = [EvSpawn "ls" "/data2"].
Proof.
  vm_compute. repeat split.
Qed.

(** * Further properties of the output limiter *)

Lemma startswith_nil s : startswith s "" = true.
Proof. destruct s; reflexivity. Qed.

Lemma startswith_refl s : startswith s s = true.
Proof.
  induction s as [|c s IH]; [reflexivity|].
  rewrite startswith_cons. destruct (ascii_dec c c); [exact IH|congruence].
Qed.

Lemma startswith_app_l s t : startswith (s +:+ t) s = true.
Proof.
  induction s as [|c s IH]; [apply startswith_nil|].
  rewrite append_cons, startswith_cons.
  destruct (ascii_dec c c); [exact IH|congruence].
Qed.

Lemma join_take_prefix sep segs : forall k,
  startswith (join sep segs) (join sep (take k segs)) = true.
Proof.
  induction segs as [|x xs IH]; intros k.
  - destruct k; reflexivity.
  - destruct k as [|k]; [apply startswith_nil|].
    cbn [take]. destruct xs as [|y ys].
    + destruct k; apply startswith_refl.
    + specialize (IH k). rewrite join_cons.
      destruct (take k (y :: ys)) as [|z zs] eqn:Htake.
      * apply startswith_app_l.
      * rewrite join_cons. rewrite startswith_app_same.
        rewrite startswith_cons.
        destruct (ascii_dec sep sep); [exact IH|congruence].
Qed.

Lemma split_app sep a b :
  split sep (a +:+ String sep b) = split sep a ++ split sep b.
Proof.
  induction a as [|c r IH]; [apply split_cons_sep|].
  rewrite append_cons.
  destruct (Ascii.eqb c sep) eqn:Hc.
  - apply Ascii.eqb_eq in Hc as ->. rewrite !split_cons_sep, IH. reflexivity.
  - rewrite !split_cons_other by exact Hc. rewrite IH.
    rewrite (split_hd_tl sep r) at 1 2. reflexivity.
Qed.

(** X1: whatever the limit, the text the limiter returns is a prefix of the
    text it was given: truncation only drops a tail. *)
Theorem X1_truncate_lines_prefix (t : string) (n : Z) :
  startswith t (fst (_truncate_lines t n)) = true.
Proof.
  unfold _truncate_lines.
  destruct (String.eqb t ""); [apply startswith_refl|].
  destruct (_ <=? n); [apply startswith_refl|].
  cbn [fst]. unfold slice_to.
  rewrite <- (join_split LF t) at 1.
  destruct (0 <=? n); apply join_take_prefix.
Qed.

(** X2: for a positive limit [n], the returned text has at most [n]
    newline-separated segments, and the flag is true exactly when the given
    text had more than [n]. *)
Theorem X2_truncate_lines_bound (t : string) (n : Z) :
  0 < n ->
  Z.of_nat (length (split LF (fst (_truncate_lines t n)))) <= n
  /\ snd (_truncate_lines t n) = (n <? Z.of_nat (length (split LF t))).
Proof.
  intros Hn.
  destruct (Z.le_gt_cases (Z.of_nat (length (split LF t))) n) as [Hle|Hgt].
  - rewrite (truncate_lines_fits t n Hle). simpl. split; [exact Hle|].
    symmetry. apply Z.ltb_ge. exact Hle.
  - rewrite (truncate_lines_cut t n Hn Hgt). simpl.
    assert (Hlen : length (take (Z.to_nat n) (split LF t)) = Z.to_nat n)
      by (apply firstn_length_le; lia).
    split.
    + rewrite split_join.
      * rewrite Hlen. lia.
      * intros Hnil. rewrite Hnil in Hlen. simpl in Hlen. lia.
      * apply Forall_take, split_free.
    + symmetry. apply Z.ltb_lt. exact Hgt.
Qed.

Lemma X2_truncate_lines_bound_witness :
  Z.of_nat (length (split LF (fst (_truncate_lines
     (String "a" (String LF (String "b" (String LF "c")))) 2)))) <= 2
  /\ snd (_truncate_lines
            (String "a" (String LF (String "b" (String LF "c")))) 2)
     = (2 <? Z.of_nat (length (split LF
            (String "a" (String LF (String "b" (String LF "c"))))))).
Proof.
  apply (X2_truncate_lines_bound
           (String "a" (String LF (String "b" (String LF "c")))) 2).
  reflexivity.
Defined.

(** X3: a text of exactly [n] lines that ends with its newline counts as
    [n + 1] segments: under the limit [n] it is reported truncated, and
    what is dropped is the final newline alone. *)
Theorem X3_truncate_lines_final_newline (t : string) (n : Z) :
  0 < n ->
  Z.of_nat (length (split LF t)) = n ->
  _truncate_lines (t +:+ String LF "") n = (t, true).
Proof.
  intros Hn Hlen.
  assert (Hsplit : split LF (t +:+ String LF "") = split LF t ++ [""])
    by apply split_app.
  rewrite truncate_lines_cut; [|exact Hn|].
  - rewrite Hsplit. rewrite take_app_length'; [|lia].
    rewrite join_split. reflexivity.
  - rewrite Hsplit, length_app. simpl. lia.
Qed.

Lemma X3_truncate_lines_final_newline_witness :
  _truncate_lines
    (String "a" (String LF "b") +:+ String LF "") 2
  = (String "a" (String LF "b"), true).
Proof.
  apply (X3_truncate_lines_final_newline (String "a" (String LF "b")) 2);
    reflexivity.
Defined.

(** * Further properties of [run_command] *)

(** The branches of a call that returned the reply in [H]. *)
Ltac reply_cases H :=
  unfold run_command in H;
  repeat match type of H with
  | context [String.eqb ?c ""] =>
      destruct (String.eqb c "") eqn:?; cbn [negb] in H
  | context [confined ?t] =>
      destruct (confined t) eqn:?; cbn [negb] in H
  end;
  unfold run_in in H;
  repeat match type of H with
  | context [create_subprocess_shell ?s ?c ?w] =>
      destruct (create_subprocess_shell s c w) eqn:?
  | context [wait_for ?c ?d] => destruct (wait_for c d) eqn:?
  | context [_truncate_lines ?t ?m] => destruct (_truncate_lines t m) eqn:?
  end;
  try discriminate H.

Lemma confined_base : confined BASE_DIR = true.
Proof. reflexivity. Qed.

Lemma kill_group_kills sh p : existsb is_kill (kill_group sh p) = true.
Proof.
  unfold kill_group. destruct (has_killpg sh); [|reflexivity].
  destruct (killpg_raises sh p); reflexivity.
Qed.

Lemma kill_group_no_spawn sh p c d : ~ In (EvSpawn c d) (kill_group sh p).
Proof.
  unfold kill_group. destruct (has_killpg sh); [destruct (killpg_raises sh p)|];
    simpl; intuition discriminate.
Qed.

(** X4: in every reply that carries the flags, [truncated] is the
    disjunction of [stdout_truncated] and [stderr_truncated]. *)
Theorem X4_truncated_is_or sh M command stdin cwd timeout timeout_ms
    events r a b :
  run_command sh M command stdin cwd timeout timeout_ms
  = (events, Some (Dumps r)) ->
  field "stdout_truncated" r = Some (JBool a) ->
  field "stderr_truncated" r = Some (JBool b) ->
  field "truncated" r = Some (JBool (a || b)).
Proof.
  intros Hrun Ha Hb.
  reply_cases Hrun; injection Hrun as <- <-; simpl in Ha, Hb;
    try discriminate; injection Ha as <-; injection Hb as <-; reflexivity.
Qed.

Lemma X4_truncated_is_or_witness :
  run_command (shell_ex 0) 1 "ls" None "" None None
  = ([EvSpawn "ls" "/data"],
     Some (Dumps (JObj [
       ("stdout", JStr "a");
       ("stderr", JStr "");
       ("exit_code", JInt 0);
       ("cwd", JStr "/data");
       ("command", JStr "ls");
       ("timeout_seconds", JFloat 60);
       ("timed_out", JBool false);
       ("truncated", JBool true);
       ("stdout_truncated", JBool true);
       ("stderr_truncated", JBool false);
       ("max_lines", JInt 1)])))
  /\ field "truncated" (JObj [
       ("stdout", JStr "a");
       ("stderr", JStr "");
       ("exit_code", JInt 0);
       ("cwd", JStr "/data");
       ("command", JStr "ls");
       ("timeout_seconds", JFloat 60);
       ("timed_out", JBool false);
       ("truncated", JBool true);
       ("stdout_truncated", JBool true);
       ("stderr_truncated", JBool false);
       ("max_lines", JInt 1)]) = Some (JBool (true || false)).
Proof.
  assert (Hrun : run_command (shell_ex 0) 1 "ls" None "" None None
    = ([EvSpawn "ls" "/data"],
     Some (Dumps (JObj [
       ("stdout", JStr "a");
       ("stderr", JStr "");
       ("exit_code", JInt 0);
       ("cwd", JStr "/data");
       ("command", JStr "ls");
       ("timeout_seconds", JFloat 60);
       ("timed_out", JBool false);
       ("truncated", JBool true);
       ("stdout_truncated", JBool true);
       ("stderr_truncated", JBool false);
       ("max_lines", JInt 1)])))) by (vm_compute; reflexivity).
  split; [exact Hrun|].
  exact (X4_truncated_is_or _ _ _ _ _ _ _ _ _ true false Hrun eq_refl eq_refl).
Defined.

(** X5: a command is spawned at most once, as the command given, and only
    in a directory that passed the check: the base directory when [cwd] is
    empty, the resolved [cwd] otherwise. *)
Theorem X5_spawn_in_checked_dir sh M command stdin cwd timeout timeout_ms
    events res c d :
  run_command sh M command stdin cwd timeout timeout_ms = (events, res) ->
  In (EvSpawn c d) events ->
  c = command /\ d = working_dir_of cwd /\ confined d = true
  /\ List.filter is_spawn events = [EvSpawn c d].
Proof.
  intros Hrun Hin. unfold working_dir_of.
  assert (Hfilter : forall p,
    List.filter is_spawn (kill_group sh p ++ [EvReap p]) = []).
  { intros p. unfold kill_group.
    destruct (has_killpg sh); [destruct (killpg_raises sh p)|]; reflexivity. }
  reply_cases Hrun; injection Hrun as <- <-; cbn [app In] in Hin;
    repeat match goal with
    | H : _ \/ _ |- _ => destruct H
    | H : False |- _ => destruct H
    | H : In _ (_ ++ _) |- _ => apply in_app_or in H
    | H : In _ (kill_group _ _) |- _ => apply kill_group_no_spawn in H
    | H : In _ [_] |- _ => cbn [In] in H
    | H : EvSpawn _ _ = EvSpawn _ _ |- _ => injection H as <- <-
    | H : EvReap _ = EvSpawn _ _ |- _ => discriminate H
    end;
    cbn [app List.filter is_spawn]; rewrite ?Hfilter;
    repeat split; try reflexivity; try assumption; try apply confined_base.
Qed.

Lemma X5_spawn_in_checked_dir_witness :
  "ls" = "ls" /\ "/data/sub" = working_dir_of "sub"
  /\ confined "/data/sub" = true
  /\ List.filter is_spawn
       [EvSpawn "ls" "/data/sub"; EvKillpg 4242; EvReap 4242]
     = [EvSpawn "ls" "/data/sub"].
Proof.
  apply (X5_spawn_in_checked_dir (shell_ex 5) 1000 "ls" None "sub"
           (Some 1%float) None
           [EvSpawn "ls" "/data/sub"; EvKillpg 4242; EvReap 4242]
           (Some (Dumps (JObj [
             ("stdout", JStr "");
             ("stderr", JStr "Command timed out");
             ("exit_code", JNull);
             ("cwd", JStr "/data/sub");
             ("command", JStr "ls");
             ("timeout_seconds", JFloat 1);
             ("timed_out", JBool true);
             ("truncated", JBool false);
             ("stdout_truncated", JBool false);
             ("stderr_truncated", JBool false);
             ("max_lines", JInt 1000)])))).
  - vm_compute. reflexivity.
  - left. reflexivity.
Defined.

(** X6: the process is killed exactly in the calls that report a timeout:
    the events of a call hold a kill if and only if its reply has
    [timed_out] true. *)
Theorem X6_killed_iff_timed_out sh M command stdin cwd timeout timeout_ms
    events r :
  run_command sh M command stdin cwd timeout timeout_ms
  = (events, Some (Dumps r)) ->
  existsb is_kill events = true <-> field "timed_out" r = Some (JBool true).
Proof.
  intros Hrun.
  reply_cases Hrun; injection Hrun as <- <-;
    cbn [app existsb is_kill orb field dict_find String.eqb];
    rewrite ?existsb_app, ?kill_group_kills;
    simpl; split; intros H; try reflexivity; try discriminate H.
Qed.

Lemma X6_killed_iff_timed_out_witness :
  existsb is_kill [EvSpawn "sleep 5" "/data"; EvKillpg 4242; EvReap 4242]
  = true
  <-> field "timed_out" (JObj [
        ("stdout", JStr "");
        ("stderr", JStr "Command timed out");
        ("exit_code", JNull);
        ("cwd", JStr "/data");
        ("command", JStr "sleep 5");
        ("timeout_seconds", JFloat 1);
        ("timed_out", JBool true);
        ("truncated", JBool false);
        ("stdout_truncated", JBool false);
        ("stderr_truncated", JBool false);
        ("max_lines", JInt 1000)]) = Some (JBool true).
Proof.
  apply (X6_killed_iff_timed_out (shell_ex 5) 1000 "sleep 5" None ""
           (Some 1%float) None).
  vm_compute. reflexivity.
Defined.

(** X7: a deadline, when there is one, is positive: [timeout_secs] never
    gives zero, a negative number or a NaN. *)
Theorem X7_deadline_is_positive (timeout timeout_ms : option float) (d : float) :
  timeout_secs timeout timeout_ms = Some d -> PrimFloat.ltb 0 d = true.
Proof.
  unfold timeout_secs, _to_float.
  destruct timeout as [s|], timeout_ms as [ms|]; simpl.
  - destruct (PrimFloat.ltb 0 s) eqn:Hs; [|discriminate].
    intros [= <-]. exact Hs.
  - destruct (PrimFloat.ltb 0 s) eqn:Hs; [|discriminate].
    intros [= <-]. exact Hs.
  - destruct (PrimFloat.ltb 0 (ms / 1000)) eqn:Hms; [|discriminate].
    intros [= <-]. exact Hms.
  - intros [= <-]. reflexivity.
Qed.

Lemma X7_deadline_is_positive_witness :
  PrimFloat.ltb 0 (2500 / 1000)%float = true.
Proof.
  apply (X7_deadline_is_positive None (Some 2500%float)). reflexivity.
Defined.

(** X8: a [timeout] that is not positive switches the deadline off: no
    reply of such a call reports a timeout, and when the process never
    ends the call never returns. *)
Theorem X8_nonpositive_timeout_never_times_out sh M command stdin cwd s
    timeout_ms :
  PrimFloat.ltb 0 s = false ->
  (forall events r,
     run_command sh M command stdin cwd (Some s) timeout_ms
     = (events, Some (Dumps r)) ->
     field "timed_out" r <> Some (JBool true))
  /\ (forall proc,
       (String.eqb cwd "" || confined (resolve cwd)) = true ->
       create_subprocess_shell sh command (working_dir_of cwd) = Spawned proc ->
       communicate proc (encode sh <$> stdin) = CommNever ->
       run_command sh M command stdin cwd (Some s) timeout_ms
       = ([EvSpawn command (working_dir_of cwd)], None)).
Proof.
  intros Hs.
  assert (Hnone : timeout_secs (Some s) timeout_ms = None).
  { unfold timeout_secs. simpl. rewrite Hs. reflexivity. }
  split.
  - intros events r Hrun.
    reply_cases Hrun; injection Hrun as <- <-; try discriminate;
      match goal with
      | H : wait_for _ _ = TimeoutError |- _ =>
          rewrite Hnone in H; unfold wait_for in H;
          destruct (communicate _ _); discriminate H
      end.
  - intros proc Hcwd Hspawn Hnever.
    rewrite (run_command_run_in _ _ _ _ _ _ _ Hcwd).
    unfold run_in. rewrite Hspawn, Hnone, Hnever. reflexivity.
Qed.

Lemma X8_nonpositive_timeout_never_times_out_witness :
  field "timed_out" (JObj [
       ("stdout", JStr (String "a" (String LF (String "b" (String LF "")))));
       ("stderr", JStr "");
       ("exit_code", JInt 0);
       ("cwd", JStr "/data");
       ("command", JStr "sleep 5");
       ("timeout_seconds", JNull);
       ("timed_out", JBool false);
       ("truncated", JBool false);
       ("stdout_truncated", JBool false);
       ("stderr_truncated", JBool false);
       ("max_lines", JInt 1000)]) <> Some (JBool true).
Proof.
  destruct (X8_nonpositive_timeout_never_times_out (shell_ex 5) 1000
              "sleep 5" None "" 0%float None eq_refl) as [Hnever _].
  apply (Hnever [EvSpawn "sleep 5" "/data"]).
  vm_compute. reflexivity.
Defined.

Lemma truncate_lines_at_most t n :
  0 < n -> Z.of_nat (length (split LF (fst (_truncate_lines t n)))) <= n.
Proof.
  intros Hn.
  destruct (Z.le_gt_cases (Z.of_nat (length (split LF t))) n) as [Hle|Hgt].
  - rewrite (truncate_lines_fits t n Hle). exact Hle.
  - rewrite (truncate_lines_cut t n Hn Hgt). simpl.
    assert (Hlen : length (take (Z.to_nat n) (split LF t)) = Z.to_nat n)
      by (apply firstn_length_le; lia).
    rewrite split_join.
    + rewrite Hlen. lia.
    + intros Hnil. rewrite Hnil in Hlen. simpl in Hlen. lia.
    + apply Forall_take, split_free.
Qed.

(** X9: under a positive line limit, a reply that is not an error carries
    a [stdout] and a [stderr] of at most that many newline-separated
    segments each. *)
Theorem X9_reply_streams_bounded sh M command stdin cwd timeout timeout_ms
    events r b :
  0 < M ->
  run_command sh M command stdin cwd timeout timeout_ms
  = (events, Some (Dumps r)) ->
  field "timed_out" r = Some (JBool b) ->
  exists out err,
    field "stdout" r = Some (JStr out)
    /\ field "stderr" r = Some (JStr err)
    /\ Z.of_nat (length (split LF out)) <= M
    /\ Z.of_nat (length (split LF err)) <= M.
Proof.
  intros HM Hrun Hb.
  reply_cases Hrun; injection Hrun as <- <-; try discriminate Hb.
  - match goal with
    | H1 : _truncate_lines ?t1 M = (?o, _),
      H2 : _truncate_lines ?t2 M = (?e, _) |- _ =>
        exists o, e; split; [reflexivity|]; split; [reflexivity|];
        pose proof (truncate_lines_at_most t1 M HM) as B1;
        pose proof (truncate_lines_at_most t2 M HM) as B2;
        rewrite H1 in B1; rewrite H2 in B2; split; assumption
    end.
  - exists "", "Command timed out".
    split; [reflexivity|]. split; [reflexivity|]. simpl. lia.
  - match goal with
    | H1 : _truncate_lines ?t1 M = (?o, _),
      H2 : _truncate_lines ?t2 M = (?e, _) |- _ =>
        exists o, e; split; [reflexivity|]; split; [reflexivity|];
        pose proof (truncate_lines_at_most t1 M HM) as B1;
        pose proof (truncate_lines_at_most t2 M HM) as B2;
        rewrite H1 in B1; rewrite H2 in B2; split; assumption
    end.
  - exists "", "Command timed out".
    split; [reflexivity|]. split; [reflexivity|]. simpl. lia.
Qed.

Lemma X9_reply_streams_bounded_witness :
  exists out err,
    field "stdout" (JObj [
       ("stdout", JStr "a");
       ("stderr", JStr "");
       ("exit_code", JInt 0);
       ("cwd", JStr "/data");
       ("command", JStr "ls");
       ("timeout_seconds", JFloat 60);
       ("timed_out", JBool false);
       ("truncated", JBool true);
       ("stdout_truncated", JBool true);
       ("stderr_truncated", JBool false);
       ("max_lines", JInt 1)]) = Some (JStr out)
    /\ field "stderr" (JObj [
       ("stdout", JStr "a");
       ("stderr", JStr "");
       ("exit_code", JInt 0);
       ("cwd", JStr "/data");
       ("command", JStr "ls");
       ("timeout_seconds", JFloat 60);
       ("timed_out", JBool false);
       ("truncated", JBool true);
       ("stdout_truncated", JBool true);
       ("stderr_truncated", JBool false);
       ("max_lines", JInt 1)]) = Some (JStr err)
    /\ Z.of_nat (length (split LF out)) <= 1
    /\ Z.of_nat (length (split LF err)) <= 1.
Proof.
  apply (X9_reply_streams_bounded (shell_ex 0) 1 "ls" None "" None None
           [EvSpawn "ls" "/data"] _ false).
  - reflexivity.
  - vm_compute. reflexivity.
  - reflexivity.
Defined.

(** X10: a reply is an error or a result, never both: an error reply has
    no [timed_out], [exit_code] or [stdout]; a result has no [error], and
    its [exit_code] is null exactly when [timed_out] is true and the
    process's return code otherwise.  Every reply names a [cwd]. *)
Theorem X10_reply_shape sh M command stdin cwd timeout timeout_ms events r :
  run_command sh M command stdin cwd timeout timeout_ms
  = (events, Some (Dumps r)) ->
  (exists wd, field "cwd" r = Some (JStr wd))
  /\ ((exists e, field "error" r = Some (JStr e)
               /\ field "timed_out" r = None
               /\ field "exit_code" r = None
               /\ field "stdout" r = None)
      \/ (field "error" r = None
          /\ field "timed_out" r = Some (JBool true)
          /\ field "exit_code" r = Some JNull)
      \/ (field "error" r = None
          /\ field "timed_out" r = Some (JBool false)
          /\ exists rc, field "exit_code" r = Some (JInt rc))).
Proof.
  intros Hrun.
  reply_cases Hrun; injection Hrun as <- <-;
    (split; [eexists; reflexivity|]);
    first [ left; eexists; repeat split; reflexivity
          | right; left; repeat split; reflexivity
          | right; right; split; [reflexivity|];
            split; [reflexivity|]; eexists; reflexivity ].
Qed.

Lemma X10_reply_shape_witness :
  (exists wd, field "cwd" (JObj [
       ("error", JStr "Cannot use cwd outside of the base directory");
       ("cwd", JStr "../etc")]) = Some (JStr wd)).
Proof.
  apply (X10_reply_shape (shell_ex 5) 1000 "ls" None "../etc" None None []).
  vm_compute. reflexivity.
Defined.

(** * Further properties of the confinement check *)

Lemma kept_not_absolute c : kept_comp c -> startswith c "/" = false.
Proof.
  intros [Hne Hfree]. destruct c as [|a r]; [congruence|].
  unfold has_char in Hfree. simpl in Hfree.
  apply orb_false_iff in Hfree as [Ha _].
  rewrite startswith_cons.
  destruct (ascii_dec "/" a) as [<-|]; [discriminate Ha|reflexivity].
Qed.

Lemma join_not_absolute comps :
  comps <> [] -> Forall plain_comp comps ->
  startswith (join slash comps) "/" = false.
Proof.
  intros Hne Hall. destruct comps as [|c rest]; [congruence|].
  inversion Hall as [|? ? [Hkept _] _]; subst.
  pose proof (kept_not_absolute c Hkept) as Hc.
  destruct c as [|a r]; [destruct Hkept; congruence|].
  destruct rest; [exact Hc|].
  rewrite join_cons, append_cons. rewrite startswith_cons in *.
  destruct (ascii_dec "/" a); [|reflexivity].
  rewrite startswith_nil in Hc. discriminate Hc.
Qed.

Lemma fold_plain k comps : forall acc,
  Forall plain_comp comps ->
  fold_left (normpath_step k) comps acc = acc ++ comps.
Proof.
  induction comps as [|c rest IH]; intros acc Hall.
  - symmetry. apply app_nil_r.
  - inversion Hall as [|? ? [[Hne _] [Hdot Hdotdot]] Hrest]; subst.
    cbn [fold_left]. rewrite IH by exact Hrest.
    unfold normpath_step.
    destruct (String.eqb_spec c ""); [congruence|].
    destruct (String.eqb_spec c "."); [congruence|].
    destruct (String.eqb_spec c ".."); [congruence|].
    cbn [orb negb]. rewrite <- app_assoc. reflexivity.
Qed.

(** X11: a relative path made of names only (no empty component, no [.],
    no [..]) resolves to the base directory followed by that path,
    unchanged, and passes the check as a path inside the base directory. *)
Theorem X11_plain_path_stays_inside (comps : list string) :
  comps <> [] -> Forall plain_comp comps ->
  resolve (join slash comps) = "/data/" +:+ join slash comps
  /\ lexically_inside (resolve (join slash comps)) = true
  /\ confined (resolve (join slash comps)) = true.
Proof.
  intros Hne Hall.
  assert (Hres : resolve (join slash comps) = "/data/" +:+ join slash comps).
  { unfold resolve, path_join.
    rewrite (join_not_absolute comps Hne Hall).
    change (String.eqb BASE_DIR "" || endswith BASE_DIR "/") with false.
    cbv iota.
    change (BASE_DIR +:+ "/" +:+ join slash comps)
      with ("" +:+ String slash ("data" +:+ String slash (join slash comps))).
    unfold normpath.
    change (String.eqb ("" +:+ String slash
              ("data" +:+ String slash (join slash comps))) "") with false.
    cbv iota.
    change (startswith ("" +:+ String slash
              ("data" +:+ String slash (join slash comps))) "/") with true.
    change (startswith ("" +:+ String slash
              ("data" +:+ String slash (join slash comps))) "//") with false.
    cbv iota beta. cbn [andb].
    rewrite !split_app_sep by reflexivity.
    rewrite split_join;
      [|exact Hne|eapply Forall_impl; [exact Hall|]; intros ? [[_ ?] _]; assumption].
    cbn [fold_left].
    change (normpath_step 1 (normpath_step 1 [] "") "data") with ["data"].
    rewrite (fold_plain 1 comps ["data"] Hall).
    destruct comps as [|c rest]; [congruence|].
    cbn [app]. rewrite join_cons. reflexivity. }
  rewrite Hres.
  assert (Hin : lexically_inside ("/data/" +:+ join slash comps) = true).
  { unfold lexically_inside. apply orb_true_iff. right.
    change (BASE_DIR +:+ "/") with "/data/". apply startswith_app_l. }
  split; [reflexivity|]. split; [exact Hin|].
  apply lexically_inside_confined, Hin.
Qed.

Lemma X11_plain_path_stays_inside_witness :
  resolve (join slash ["sub"; "dir"; "new.txt"])
  = "/data/" +:+ join slash ["sub"; "dir"; "new.txt"]
  /\ lexically_inside (resolve (join slash ["sub"; "dir"; "new.txt"])) = true
  /\ confined (resolve (join slash ["sub"; "dir"; "new.txt"])) = true.
Proof.
  apply (X11_plain_path_stays_inside ["sub"; "dir"; "new.txt"]).
  - discriminate.
  - repeat constructor; discriminate.
Defined.

(** X12: a relative path that climbs with one or more [../] to a name that
    does not start with the text "data" fails the check, and every file
    tool refuses it and leaves the file system as it was. *)
Theorem X12_dotdot_escape_refused (k : nat) (name : string) (fs : node) :
  kept_comp name -> name <> "." -> name <> ".." ->
  startswith name "data" = false ->
  confined (resolve (dotdots (S k) +:+ name)) = false
  /\ list_files fs (dotdots (S k) +:+ name)
     = Text "Error: Cannot access directories outside of the base directory."
  /\ read_file fs (dotdots (S k) +:+ name)
     = "Error: Cannot access files outside of the base directory."
  /\ (forall content,
        write_file fs (dotdots (S k) +:+ name) content
        = ("Error: Cannot access files outside of the base directory.", fs))
  /\ delete_file fs (dotdots (S k) +:+ name)
     = ("Error: Cannot access files outside of the base directory.", fs).
Proof.
  intros Hkept Hdot Hdotdot Hdata.
  pose proof (dotdot_escape_refused k name Hkept Hdot Hdotdot Hdata) as Hout.
  split; [exact Hout|].
  unfold list_files, read_file, write_file, delete_file.
  rewrite Hout. repeat split.
Qed.

Lemma X12_dotdot_escape_refused_witness :
  confined (resolve (dotdots 3 +:+ "etc")) = false
  /\ read_file fs_ex (dotdots 3 +:+ "etc")
     = "Error: Cannot access files outside of the base directory.".
Proof.
  destruct (X12_dotdot_escape_refused 2 "etc" fs_ex) as (Hout & _ & Hread & _);
    [split; [discriminate|reflexivity]|discriminate|discriminate|reflexivity|].
  split; [exact Hout|exact Hread].
Defined.









(** * Further properties of the configuration helpers *)





















(** * Further properties of the file tools *)


Lemma resolve_parts_split path :
  confined (resolve path) = true ->
  path_parts (resolve path)
  = path_parts (dirname (resolve path))
    ++ [List.last (split slash (resolve path)) ""].
Proof. intros Hc. exact (parts_dirname_last _ (confined_last_part _ Hc)). Qed.

(** What a [write_file] that succeeds does to the tree. *)
Lemma write_file_steps fs file_path content :
  confined (resolve file_path) = true ->
  free_or_file (lookup_path fs (resolve file_path)) = true ->
  exists dparts name fs1 fs2,
    path_parts (resolve file_path) = dparts ++ [name]
    /\ mkdir_p "/" dparts (Some fs) = inr fs1
    /\ free_or_file (walk fs1 (dparts ++ [name])) = true
    /\ put (dparts ++ [name]) (File content) (Some fs1) = Some fs2
    /\ walk fs2 (dparts ++ [name]) = Found (File content)
    /\ (exists es, walk fs2 dparts = Found (Dir es))
    /\ write_file fs file_path content
       = ("Successfully wrote to " +:+ file_path, fs2).
Proof.
  intros Hc Hfree. pose proof (resolve_parts_split _ Hc) as Hparts.
  set (t := resolve file_path) in *.
  set (name := List.last (split slash t) "") in *.
  unfold lookup_path in Hfree. rewrite Hparts in Hfree.
  destruct (mkdir_p_makes (path_parts (dirname t)) "/" (Some fs) name Hfree)
    as (fs1 & Hmk & [es Hdir] & Hfree1).
  destruct (put_under_dir _ fs1 es name (File content) Hdir)
    as (fs2 & Hput & Hnew & Hdir2).
  exists (path_parts (dirname t)), name, fs1, fs2.
  repeat (split; [assumption|]).
  unfold write_file. fold t. rewrite Hc. cbn [negb].
  unfold makedirs. rewrite Hmk.
  unfold write_text, lookup_path. rewrite Hparts, Hput.
  destruct (walk fs1 (path_parts (dirname t) ++ [name])) as [[c|]| |];
    try discriminate; reflexivity.
Qed.

Lemma mkdir_p_keeps_files dparts : forall here n n1 q c,
  mkdir_p here dparts n = inr n1 ->
  walk_opt n q = Found (File c) -> walk n1 q = Found (File c).
Proof.
  induction dparts as [|d rest IH]; intros here n n1 q c Hmk Hq.
  - destruct n as [[content|es]|]; [discriminate Hmk| |discriminate Hq].
    cbn [mkdir_p] in Hmk. injection Hmk as <-. exact Hq.
  - destruct n as [[content|es]|]; [discriminate Hmk| |discriminate Hq].
    cbn [mkdir_p] in Hmk.
    destruct (mkdir_p _ rest (es !! d)) as [e|child] eqn:Hchild;
      [discriminate|]. injection Hmk as <-.
    destruct q as [|x q']; [discriminate Hq|].
    cbn [walk_opt walk] in Hq |- *.
    destruct (decide (d = x)) as [->|Hne].
    + rewrite lookup_insert_eq.
      destruct (es !! x) as [ch|] eqn:Hx; [|discriminate Hq].
      eapply IH; [exact Hchild|exact Hq].
    + rewrite lookup_insert_ne by exact Hne. exact Hq.
Qed.

Lemma put_keeps_files parts : forall new n n2 q c,
  put parts new (Some n) = Some n2 ->
  free_or_file (walk n parts) = true ->
  walk n q = Found (File c) -> q <> parts ->
  walk n2 q = Found (File c).
Proof.
  induction parts as [|d rest IH]; intros new n n2 q c Hput Hfree Hq Hne.
  - cbn [walk] in Hfree. destruct n as [content|es]; [|discriminate Hfree].
    destruct q as [|x q']; [congruence|discriminate Hq].
  - destruct n as [content|es]; [discriminate Hput|].
    cbn [put] in Hput.
    destruct (put rest new (es !! d)) as [child|] eqn:Hchild; [|discriminate].
    injection Hput as <-.
    destruct q as [|x q']; [discriminate Hq|].
    cbn [walk] in Hq, Hfree |- *.
    destruct (decide (d = x)) as [->|Hdx].
    + rewrite lookup_insert_eq.
      destruct (es !! x) as [ch|] eqn:Hx; [|discriminate Hq].
      eapply IH; [exact Hchild|exact Hfree|exact Hq|congruence].
    + rewrite lookup_insert_ne by exact Hdx. exact Hq.
Qed.

Lemma read_file_of_file fs path c :
  confined (resolve path) = true ->
  lookup_path fs (resolve path) = Found (File c) ->
  read_file fs path = universal_newlines c.
Proof.
  intros Hc Hfile. unfold read_file, isfile, read_text.
  rewrite Hc, Hfile. reflexivity.
Qed.

(** X16: a [write_file] that succeeds leaves every other file as it was:
    a file at a different path, read after the write, gives what it gave
    before. *)
Theorem X16_write_file_keeps_other_files (fs : node)
    (file_path content other c : string) :
  confined (resolve file_path) = true ->
  free_or_file (lookup_path fs (resolve file_path)) = true ->
  confined (resolve other) = true ->
  lookup_path fs (resolve other) = Found (File c) ->
  path_parts (resolve other) <> path_parts (resolve file_path) ->
  lookup_path (snd (write_file fs file_path content)) (resolve other)
  = Found (File c)
  /\ read_file (snd (write_file fs file_path content)) other
     = read_file fs other.
Proof.
  intros Hc Hfree Hco Hother Hne.
  destruct (write_file_steps fs file_path content Hc Hfree)
    as (dparts & name & fs1 & fs2 & Hparts & Hmk & Hfree1 & Hput & _ & _ & Hw).
  rewrite Hw. cbn [snd].
  assert (Hkept : lookup_path fs2 (resolve other) = Found (File c)).
  { unfold lookup_path in *. rewrite Hparts in Hne.
    eapply put_keeps_files; [exact Hput|exact Hfree1| |exact Hne].
    eapply mkdir_p_keeps_files; [exact Hmk|exact Hother]. }
  split; [exact Hkept|].
  rewrite (read_file_of_file fs2 other c Hco Hkept).
  rewrite (read_file_of_file fs other c Hco Hother). reflexivity.
Qed.

Lemma X16_write_file_keeps_other_files_witness :
  lookup_path (snd (write_file fs_ex "sub/dir/new.txt" "abc"))
    (resolve "sub/b.txt") = Found (File "x")
  /\ read_file (snd (write_file fs_ex "sub/dir/new.txt" "abc")) "sub/b.txt"
     = read_file fs_ex "sub/b.txt".
Proof.
  apply (X16_write_file_keeps_other_files fs_ex "sub/dir/new.txt" "abc"
           "sub/b.txt" "x"); try reflexivity.
  vm_compute. discriminate.
Defined.







Lemma unlink_keeps_files parts : forall n q c,
  (exists content, walk n parts = Found (File content))
  \/ walk n parts = Found (Dir ∅) ->
  walk n q = Found (File c) -> q <> parts ->
  walk (unlink parts n) q = Found (File c).
Proof.
  induction parts as [|d rest IH]; intros n q c Htarget Hq Hne;
    [exact Hq|].
  destruct n as [content|es]; [destruct rest; exact Hq|].
  destruct q as [|x q']; [discriminate Hq|].
  cbn [walk] in Hq, Htarget.
  destruct rest as [|d2 rest].
  - cbn [unlink walk].
    destruct (decide (d = x)) as [->|Hdx].
    + exfalso. destruct (es !! x) as [ch|]; [|discriminate Hq].
      destruct q' as [|y q'']; [congruence|].
      cbn [walk] in Htarget. destruct Htarget as [[content Hf]|Hd].
      * injection Hf as ->. discriminate Hq.
      * injection Hd as ->. cbn [walk] in Hq. rewrite lookup_empty in Hq.
        discriminate Hq.
    + rewrite lookup_delete_ne by exact Hdx. exact Hq.
  - cbn [unlink].
    destruct (es !! d) as [child|] eqn:Hd; [|exact Hq].
    cbn [walk].
    destruct (decide (d = x)) as [->|Hdx].
    + rewrite lookup_insert_eq. rewrite Hd in Hq.
      apply IH; [exact Htarget|exact Hq|congruence].
    + rewrite lookup_insert_ne by exact Hdx. exact Hq.
Qed.

(** X19: [delete_file] removes nothing but its target: whatever it
    answers, a file at a different path is still there afterwards and reads
    as before. *)
Theorem X19_delete_file_keeps_other_files (fs : node)
    (file_path other c : string) :
  confined (resolve other) = true ->
  lookup_path fs (resolve other) = Found (File c) ->
  path_parts (resolve other) <> path_parts (resolve file_path) ->
  lookup_path (snd (delete_file fs file_path)) (resolve other)
  = Found (File c)
  /\ read_file (snd (delete_file fs file_path)) other = read_file fs other.
Proof.
  intros Hco Hother Hne.
  assert (Hkept : lookup_path (snd (delete_file fs file_path)) (resolve other)
                  = Found (File c)).
  { unfold delete_file.
    destruct (confined (resolve file_path)); cbn [negb]; [|exact Hother].
    unfold exists_path, isdir, rmdir, remove.
    destruct (lookup_path fs (resolve file_path)) as [[content|es]| |] eqn:Ht;
      cbn [negb snd]; try exact Hother.
    - unfold lookup_path in *.
      apply unlink_keeps_files; [left; eauto|exact Hother|exact Hne].
    - destruct (map_to_list es) as [|kv l] eqn:Hes; cbn [is_nil negb];
        [|exact Hother].
      apply map_to_list_empty_iff in Hes. subst es.
      destruct (is_nil (path_parts (resolve file_path))); [exact Hother|].
      unfold lookup_path in *.
      apply unlink_keeps_files; [right; exact Ht|exact Hother|exact Hne]. }
  split; [exact Hkept|].
  rewrite (read_file_of_file _ other c Hco Hkept).
  rewrite (read_file_of_file fs other c Hco Hother). reflexivity.
Qed.

Lemma X19_delete_file_keeps_other_files_witness :
  lookup_path (snd (delete_file fs_ex "a.txt")) (resolve "sub/b.txt")
  = Found (File "x")
  /\ read_file (snd (delete_file fs_ex "a.txt")) "sub/b.txt"
     = read_file fs_ex "sub/b.txt".
Proof.
  apply (X19_delete_file_keeps_other_files fs_ex "a.txt" "sub/b.txt" "x");
    try reflexivity.
  vm_compute. discriminate.
Defined.













